(** * SimpleRAG: chunking, chat-scoped storage, keyword retrieval and the
      web-search classifier of [services/simple_rag.py].

    The development is a shallow embedding of the Python class [SimpleRAG].
    Python [str] values are modelled as Rocq strings whose characters are
    the code points below 256; Python [int] values are modelled as [Z].
    The in-memory state of the object (the two attributes
    [documents_metadata] and [chat_documents]) is threaded explicitly. *)

From Stdlib Require Import ZArith Lia List Ascii String Bool.
From Stdlib Require Import DecimalString Sorted.
From stdpp Require Import gmap strings.
Import ListNotations.

Local Open Scope string_scope.
Local Open Scope Z_scope.

(** ** Python string primitives *)

Module PyStr.

(** [str.isspace] on a single code point below 256: TAB..CR, FS..US, the
    blank, NEL and the no-break space. *)
Definition is_space (c : ascii) : bool :=
  let n := nat_of_ascii c in
  ((9 <=? n)%nat && (n <=? 13)%nat)
  || ((28 <=? n)%nat && (n <=? 32)%nat)
  || (n =? 133)%nat || (n =? 160)%nat.

(** [str.lower] on a single code point below 256. *)
Definition lower_char (c : ascii) : ascii :=
  let n := nat_of_ascii c in
  if ((65 <=? n)%nat && (n <=? 90)%nat)
     || ((192 <=? n)%nat && (n <=? 222)%nat && negb (n =? 215)%nat)
  then ascii_of_nat (n + 32) else c.

Fixpoint lower (s : string) : string :=
  match s with
  | EmptyString => EmptyString
  | String c r => String (lower_char c) (lower r)
  end.

Definition len (s : string) : Z := Z.of_nat (String.length s).

(** [s[i]] for a Python integer index: negative indices count from the
    end, and an index outside [-len, len) raises IndexError ([None]). *)
Definition index (s : string) (i : Z) : option ascii :=
  if 0 <=? i then String.get (Z.to_nat i) s
  else if - len s <=? i then String.get (Z.to_nat (len s + i)) s
  else None.

(** Normalisation of one slice bound, as CPython's [PySlice_AdjustIndices]
    does for a step of 1. *)
Definition clamp (n i : Z) : Z :=
  if i <? 0 then Z.max (i + n) 0 else Z.min i n.

(** [s[a:b]]. *)
Definition slice (s : string) (a b : Z) : string :=
  let a' := clamp (len s) a in
  let b' := clamp (len s) b in
  if a' <? b' then String.substring (Z.to_nat a') (Z.to_nat (b' - a')) s
  else EmptyString.

Fixpoint lstrip (s : string) : string :=
  match s with
  | EmptyString => EmptyString
  | String c r => if is_space c then lstrip r else s
  end.

Fixpoint rstrip (s : string) : string :=
  match s with
  | EmptyString => EmptyString
  | String c r =>
      match rstrip r with
      | EmptyString => if is_space c then EmptyString else String c EmptyString
      | r' => String c r'
      end
  end.

(** [s.strip()]. *)
Definition strip (s : string) : string := rstrip (lstrip s).

(** Truthiness of a string: [if s:]. *)
Definition truthy (s : string) : bool :=
  match s with EmptyString => false | _ => true end.

(** [needle in hay]. *)
Fixpoint contains (needle hay : string) : bool :=
  String.prefix needle hay
  || match hay with
     | EmptyString => false
     | String _ r => contains needle r
     end.

(** [s.split()] with no separator: maximal runs of non-space characters.
    [cur] is the run being read, in order. *)
Fixpoint split_aux (cur : string) (s : string) : list string :=
  match s with
  | EmptyString => if truthy cur then [cur] else []
  | String c r =>
      if is_space c
      then (if truthy cur then cur :: split_aux EmptyString r
            else split_aux EmptyString r)
      else split_aux (cur ++ String c EmptyString) r
  end.

Definition split (s : string) : list string := split_aux EmptyString s.

(** Decimal rendering of a natural number, as [f"{i}"] does. *)
Definition of_nat (n : nat) : string :=
  NilZero.string_of_uint (Nat.to_uint n).

(** [sep.join(parts)]. *)
Fixpoint join (sep : string) (parts : list string) : string :=
  match parts with
  | [] => EmptyString
  | [p] => p
  | p :: rest => p ++ sep ++ join sep rest
  end.

End PyStr.

(** ** The chunker: [SimpleRAG.chunk_text] *)

(** What a run of a Python loop can do: return, raise IndexError, or still
    be running when the step budget of the model is spent. *)
Inductive outcome (A : Type) : Type :=
| Returned (a : A)
| RaisedIndexError
| StillRunning.
Arguments Returned {A} a.
Arguments RaisedIndexError {A}.
Arguments StillRunning {A}.

(** [c in '.!?\n'] for a single character [c]. *)
Definition is_sentence_end (c : ascii) : bool :=
  let n := nat_of_ascii c in
  (n =? 46)%nat || (n =? 33)%nat || (n =? 63)%nat || (n =? 10)%nat.

(** The inner [for i in range(end, lo, -1)] loop, entered at index [i] with
    [n] iterations left; [dflt] is the value [end] keeps when the loop
    runs to completion without a [break]. *)
Fixpoint scan_back (text : string) (i : Z) (n : nat) (dflt : Z) : option Z :=
  match n with
  | O => Some dflt
  | S n' =>
      match PyStr.index text i with
      | None => None
      | Some c =>
          if is_sentence_end c then Some (i + 1)
          else scan_back text (i - 1) n' dflt
      end
  end.

(** The value of [end] after lines 177-183, for the window starting at
    [start]; [None] when [text[i]] raises. *)
Definition window_end (text : string) (chunk_size start : Z) : option Z :=
  let e := start + chunk_size in
  if e <? PyStr.len text then
    let lo := Z.max (start + chunk_size / 2) (e - 100) in
    scan_back text e (Z.to_nat (e - lo)) e
  else Some e.

(** The [while start < len(text)] loop, with a step budget. *)
Fixpoint chunk_loop (fuel : nat) (text : string) (chunk_size overlap : Z)
    (start : Z) (chunks : list string) : outcome (list string) :=
  match fuel with
  | O => StillRunning
  | S fuel' =>
      if start <? PyStr.len text then
        match window_end text chunk_size start with
        | None => RaisedIndexError
        | Some e =>
            let chunk := PyStr.strip (PyStr.slice text start e) in
            let chunks' :=
              if PyStr.truthy chunk then (chunks ++ [chunk])%list else chunks in
            let start' := e - overlap in
            if PyStr.len text <=? start' then Returned chunks'
            else chunk_loop fuel' text chunk_size overlap start' chunks'
        end
      else Returned chunks
  end.

Definition chunk_text (fuel : nat) (text : string) (chunk_size overlap : Z)
  : outcome (list string) :=
  if PyStr.len text <=? chunk_size then Returned [text]
  else chunk_loop fuel text chunk_size overlap 0 [].

(** The default arguments of [chunk_text]. *)
Definition default_chunk_size : Z := 1000.
Definition default_overlap : Z := 200.

(** ** The web-search classifier: [SimpleRAG.should_trigger_web_search] *)

Module Re.

(** The regular expressions of the classifier are literals separated by
    [.*]; a pattern is the list of its pieces. *)
Inductive piece : Type :=
| Lit (s : string)
| DotStar.

Definition is_newline (c : ascii) : bool := (nat_of_ascii c =? 10)%nat.

(** Whether the pattern matches a prefix of the subject. Without the
    DOTALL flag, [.] matches every character except the line feed. *)
Fixpoint match_here (p : list piece) : string -> bool :=
  match p with
  | [] => fun _ => true
  | Lit l :: rest =>
      fun s =>
        String.prefix l s
        && match_here rest
             (String.substring (String.length l)
                (String.length s - String.length l) s)
  | DotStar :: rest =>
      fix star (s : string) : bool :=
        match_here rest s
        || match s with
           | EmptyString => false
           | String c r => negb (is_newline c) && star r
           end
  end.

(** [re.search(p, s)] as a truth value: a match at some position. *)
Fixpoint search (p : list piece) (s : string) : bool :=
  match_here p s
  || match s with
     | EmptyString => false
     | String _ r => search p r
     end.

End Re.

Import Re.

Definition search_triggers : list string :=
  [ "latest"; "recent"; "current"; "today"; "now"; "this week"; "this month";
    "yesterday"; "breaking"; "update"; "news"; "new"; "fresh"; "live";
    "weather"; "temperature"; "forecast"; "climate"; "rain"; "sunny"; "cloudy";
    "humidity"; "wind"; "storm"; "hot"; "cold"; "degrees";
    "stock price"; "exchange rate"; "cryptocurrency"; "bitcoin"; "price";
    "market"; "cost"; "trending"; "viral"; "popular";
    "happening"; "events"; "breaking news";
    "what is the current"; "how much does"; "when did"; "who is currently";
    "where is now"; "what happened today"; "tell me the current" ].

Definition no_search_keywords : list string :=
  [ "document"; "file"; "upload"; "analyze this"; "summarize this";
    "from the document"; "in the pdf"; "according to the file" ].

Definition weather_patterns : list (list piece) :=
  [ [Lit "weather"; DotStar; Lit "in"; DotStar];
    [Lit "temperature"; DotStar; Lit "in"; DotStar];
    [Lit "how"; DotStar; Lit "hot"; DotStar; Lit "today"];
    [Lit "how"; DotStar; Lit "cold"; DotStar; Lit "today"];
    [Lit "rain"; DotStar; Lit "today"];
    [Lit "forecast"; DotStar; Lit "for"; DotStar];
    [Lit "climate"; DotStar; Lit "in"; DotStar] ].

Definition question_patterns : list (list piece) :=
  [ [Lit "what"; DotStar; Lit "is"; DotStar; Lit "price"];
    [Lit "how"; DotStar; Lit "much"; DotStar; Lit "cost"];
    [Lit "when"; DotStar; Lit "did"; DotStar; Lit "happen"];
    [Lit "who"; DotStar; Lit "is"; DotStar; Lit "currently"];
    [Lit "where"; DotStar; Lit "is"; DotStar; Lit "now"];
    [Lit "what"; DotStar; Lit "happened"; DotStar; Lit "today"];
    [Lit "latest"; DotStar; Lit "on"];
    [Lit "current"; DotStar; Lit "weather"];
    [Lit "tell"; DotStar; Lit "me"; DotStar; Lit "current"];
    [Lit "what"; DotStar; Lit "is"; DotStar; Lit "the"; DotStar;
     Lit "current"] ].

Definition direct_weather_words : list string :=
  [ "weather"; "temperature"; "forecast"; "climate" ].

(** The decision on the lower-cased query, in the order of the source. *)
Definition classify_lower (query_lower : string) : bool :=
  if existsb (fun keyword => PyStr.contains keyword query_lower)
       no_search_keywords
  then false
  else if existsb (fun trigger => PyStr.contains trigger query_lower)
            search_triggers
  then true
  else if existsb (fun pattern => Re.search pattern query_lower)
            weather_patterns
  then true
  else if existsb (fun pattern => Re.search pattern query_lower)
            question_patterns
  then true
  else if existsb (fun word => PyStr.contains word query_lower)
            direct_weather_words
  then true
  else false.

Definition should_trigger_web_search (query : string) : bool :=
  classify_lower (PyStr.lower query).

(** ** The data model: Document Records, Chat Store and Global Registry *)

(** Python exceptions are carried as their message. *)
Inductive result (A : Type) : Type :=
| Ok (a : A)
| Raise (msg : string).
Arguments Ok {A} a.
Arguments Raise {A} msg.

(** Modelled from the spec: the storage reference. The dictionaries built
    by [_save_local] and by the cloud storage service are kept to the two
    entries that the core reads, the storage type and the location (the
    [file_path] entry for local storage); such a dictionary is never empty,
    so it is always truthy. *)
Record file_metadata : Type := {
  storage_type : string;
  file_path : string
}.

(** A value of [chat_documents[chat_id]]. *)
Record doc_data : Type := {
  doc_filename : string;
  doc_chunks : list string;
  doc_full_text : string;
  doc_upload_time : string;
  doc_file_metadata : file_metadata
}.

(** An element of [documents_metadata]. *)
Record doc_summary : Type := {
  sum_id : string;
  sum_filename : string;
  sum_file_metadata : file_metadata;
  sum_chunks : nat;
  sum_upload_time : string;
  sum_chat_id : option string
}.

(** A Python dictionary keyed by strings whose iteration order matters:
    the items in insertion order. *)
Module Dict.
Section Dict.
Context {V : Type}.

(** [d[k] = v]: an existing key keeps its position. *)
Fixpoint set (k : string) (v : V) (d : list (string * V))
  : list (string * V) :=
  match d with
  | [] => [(k, v)]
  | (k', v') :: r =>
      if String.eqb k' k then (k, v) :: r else (k', v') :: set k v r
  end.

(** The loop [for k, v in list(d.items()): if p(v): del d[k]; break]. The
    keys of a dictionary are distinct, so deleting the key of the first
    match removes that item only. *)
Fixpoint del_first (p : V -> bool) (d : list (string * V))
  : list (string * V) :=
  match d with
  | [] => []
  | (k, v) :: r => if p v then r else (k, v) :: del_first p r
  end.

End Dict.
End Dict.

(** The state of a [SimpleRAG] object. *)
Record rag : Type := {
  documents_metadata : list doc_summary;
  chat_documents : gmap string (list (string * doc_data))
}.

(** The state after [__init__]. *)
Definition init : rag :=
  {| documents_metadata := []; chat_documents := ∅ |}.

(** Truthiness of an optional chat identifier: [if chat_id:]. *)
Definition chat_truthy (chat_id : option string) : bool :=
  match chat_id with
  | Some c => PyStr.truthy c
  | None => false
  end.

(** [a == b] on optional chat identifiers ([None == None] holds). *)
Definition chat_eqb (a b : option string) : bool :=
  match a, b with
  | Some x, Some y => String.eqb x y
  | None, None => true
  | _, _ => false
  end.

(** [chat_documents.get(c, {})] as a list of items. *)
Definition docs_of (s : rag) (c : string) : list (string * doc_data) :=
  default [] (chat_documents s !! c).

(** ** The collaborators outside the core *)

(** Text extraction libraries, the digest, the path library and the two
    ways of saving a file, as the core calls them.
    [use_cloudinary] and [has_cloudinary_service] are the two attributes
    set by [__init__]: whether the cloud service is configured, and
    whether the service object exists at all. *)
Record collaborators : Type := {
  md5_hexdigest10 : list Byte.byte -> string;
  path_suffix : string -> string;
  pdf_pages : list Byte.byte -> option (list string);
  docx_raw_text : list Byte.byte -> option string;
  utf8_decode : list Byte.byte -> option string;
  use_cloudinary : bool;
  has_cloudinary_service : bool;
  cloudinary_upload :
    list Byte.byte -> string -> option string -> result file_metadata;
  local_write : string -> list Byte.byte -> result unit
}.

(** What the storage answers during one call of [delete_document]: the
    result of [cloudinary_service.delete_file], of [os.path.exists] and of
    [os.remove]. Each is asked at most once in a call, for the metadata of
    the first matching summary; [delete_file] and [os.remove] can raise,
    and the answers may differ from one call to the next. *)
Record storage_reply : Type := {
  cloud_delete_file : result bool;
  os_path_exists : bool;
  os_remove : result unit
}.

Section Core.
Variable E : collaborators.

Definition _save_local (file_content : list Byte.byte) (filename : string)
  : result file_metadata :=
  let file_hash := md5_hexdigest10 E file_content in
  let safe_filename := file_hash ++ "_" ++ filename in
  let path := "documents/" ++ safe_filename in
  match local_write E path file_content with
  | Raise msg => Raise msg
  | Ok _ => Ok {| storage_type := "local"; file_path := path |}
  end.

Definition save_file (file_content : list Byte.byte) (filename : string)
    (chat_id : option string) : result file_metadata :=
  if use_cloudinary E && has_cloudinary_service E
  then cloudinary_upload E file_content filename chat_id
  else _save_local file_content filename.

Definition nl : string := String (ascii_of_nat 10) EmptyString.

Definition extract_text_from_pdf (file_content : list Byte.byte) : string :=
  match pdf_pages E file_content with
  | Some pages =>
      PyStr.strip (fold_left (fun text page => text ++ page ++ nl) pages "")
  | None => ""
  end.

Definition extract_text_from_docx (file_content : list Byte.byte) : string :=
  match docx_raw_text E file_content with
  | Some value => value
  | None => ""
  end.

Definition extract_text_from_txt (file_content : list Byte.byte) : string :=
  match utf8_decode E file_content with
  | Some text => text
  | None => ""
  end.

Definition extract_text (file_content : list Byte.byte) (filename : string)
  : result string :=
  let extension := PyStr.lower (path_suffix E filename) in
  if String.eqb extension ".pdf"
  then Ok (extract_text_from_pdf file_content)
  else if String.eqb extension ".docx"
  then Ok (extract_text_from_docx file_content)
  else if String.eqb extension ".txt" || String.eqb extension ".md"
  then Ok (extract_text_from_txt file_content)
  else Raise ("Unsupported file type: " ++ extension).

(** What [process_document] returns on success. *)
Record ingest_info : Type := {
  info_filename : string;
  info_chunk_count : nat;
  info_file_metadata : file_metadata;
  info_file_id : string
}.

(** A call of [process_document] returns, raises, or does not come back
    from the chunker. *)
Inductive ingest_outcome : Type :=
| Ingested (info : ingest_info)
| IngestFailed (msg : string)
| IngestHangs.

Definition processing_failed (msg : string) : ingest_outcome :=
  IngestFailed ("Document processing failed: " ++ msg).

(** [process_document]; [t_record] and [t_summary] are the two readings of
    the clock. The chunker is given one step per character and one more. *)
Definition process_document (t_record t_summary : string) (s : rag)
    (file_content : list Byte.byte) (filename : string)
    (chat_id : option string) : ingest_outcome * rag :=
  match save_file file_content filename chat_id with
  | Raise msg => (processing_failed msg, s)
  | Ok meta =>
      match extract_text file_content filename with
      | Raise msg => (processing_failed msg, s)
      | Ok text =>
          if negb (PyStr.truthy text)
          then (processing_failed
                  "No text could be extracted from the document", s)
          else
            match chunk_text (S (String.length text)) text
                    default_chunk_size default_overlap with
            | StillRunning => (IngestHangs, s)
            | RaisedIndexError =>
                (processing_failed "string index out of range", s)
            | Returned chunks =>
                let file_id := md5_hexdigest10 E file_content in
                let store :=
                  match chat_id with
                  | Some c =>
                      if PyStr.truthy c then
                        <[ c := Dict.set file_id
                                  {| doc_filename := filename;
                                     doc_chunks := chunks;
                                     doc_full_text := text;
                                     doc_upload_time := t_record;
                                     doc_file_metadata := meta |}
                                  (docs_of s c) ]> (chat_documents s)
                      else chat_documents s
                  | None => chat_documents s
                  end in
                let registry :=
                  (documents_metadata s ++
                   [ {| sum_id := file_id;
                        sum_filename := filename;
                        sum_file_metadata := meta;
                        sum_chunks := List.length chunks;
                        sum_upload_time := t_summary;
                        sum_chat_id := chat_id |} ])%list in
                (Ingested {| info_filename := filename;
                             info_chunk_count := List.length chunks;
                             info_file_metadata := meta;
                             info_file_id := file_id |},
                 {| documents_metadata := registry;
                    chat_documents := store |})
            end
      end
  end.

(** [has_documents]. *)
Definition has_documents (s : rag) (chat_id : option string) : bool :=
  if negb (chat_truthy chat_id)
  then (0 <? List.length (documents_metadata s))%nat
  else match chat_id with
       | Some c =>
           match chat_documents s !! c with
           | Some d => (0 <? List.length d)%nat
           | None => false
           end
       | None => false
       end.

(** The test of lines 454 and 485. *)
Definition summary_matches (filename : string) (chat_id : option string)
    (doc : doc_summary) : bool :=
  String.eqb (sum_filename doc) filename && chat_eqb (sum_chat_id doc) chat_id.

(** The storage half of [delete_document], lines 463-473: the value of
    [success], or the exception that [delete_file] or [os.remove] raised. *)
Definition delete_from_storage (w : storage_reply) (meta : file_metadata)
  : result bool :=
  if String.eqb (storage_type meta) "cloudinary" && has_cloudinary_service E
  then cloud_delete_file w
  else if String.eqb (storage_type meta) "local"
  then
    if PyStr.truthy (file_path meta) && os_path_exists w
    then match os_remove w with
         | Ok _ => Ok true
         | Raise msg => Raise msg
         end
    else Ok false
  else Ok false.

(** The two removals from memory of [delete_document], lines 475-486, and
    its result when the storage answered [success]. *)
Definition remove_from_memory (success : bool) (s : rag) (filename : string)
    (chat_id : option string) : bool * rag :=
  let store :=
    match chat_id with
    | Some c =>
        if PyStr.truthy c then
          match chat_documents s !! c with
          | Some d =>
              <[ c := Dict.del_first
                        (fun doc_data =>
                           String.eqb (doc_filename doc_data) filename) d ]>
                (chat_documents s)
          | None => chat_documents s
          end
        else chat_documents s
    | None => chat_documents s
    end in
  let registry :=
    List.filter (fun doc => negb (summary_matches filename chat_id doc))
      (documents_metadata s) in
  (success, {| documents_metadata := registry; chat_documents := store |}).

(** [delete_document]. An exception of the storage is caught by the
    [except] clause of lines 490-492: the call returns False and the
    removals from memory are not reached. *)
Definition delete_document (w : storage_reply) (s : rag) (filename : string)
    (chat_id : option string) : bool * rag :=
  match List.find (summary_matches filename chat_id) (documents_metadata s) with
  | None => (false, s)
  | Some doc =>
      match delete_from_storage w (sum_file_metadata doc) with
      | Raise _ => (false, s)
      | Ok success => remove_from_memory success s filename chat_id
      end
  end.

End Core.

(** ** The retriever: [SimpleRAG.simple_search] *)

(** An element of [relevant_chunks]. *)
Record scored_chunk : Type := {
  sc_chunk : string;
  sc_score : nat;
  sc_filename : string
}.

(** [sum(1 for word in query_words if word in chunk_lower)]. *)
Definition relevance_score (query_words : list string) (chunk : string)
  : nat :=
  let chunk_lower := PyStr.lower chunk in
  List.length
    (List.filter (fun word => PyStr.contains word chunk_lower) query_words).

(** The two nested loops of lines 313-323. *)
Definition relevant_chunks (query_words : list string)
    (docs : list (string * doc_data)) : list scored_chunk :=
  List.flat_map
    (fun item : string * doc_data =>
       let doc := snd item in
       List.flat_map
         (fun chunk =>
            let score := relevance_score query_words chunk in
            if (0 <? score)%nat
            then [ {| sc_chunk := chunk; sc_score := score;
                      sc_filename := doc_filename doc |} ]
            else [])
         (doc_chunks doc))
    docs.

(** [list.sort(key=score, reverse=True)]: decreasing scores, equal scores
    in their original order. *)
Fixpoint insert_desc (x : scored_chunk) (l : list scored_chunk)
  : list scored_chunk :=
  match l with
  | [] => [x]
  | y :: r =>
      if (sc_score x <? sc_score y)%nat then y :: insert_desc x r
      else x :: y :: r
  end.

Definition sort_desc (l : list scored_chunk) : list scored_chunk :=
  List.fold_right insert_desc [] l.

(** [l[:k]] for a Python integer [k]. *)
Definition take_py {A : Type} (k : Z) (l : list A) : list A :=
  if 0 <=? k then List.firstn (Z.to_nat k) l
  else List.firstn (List.length l - Z.to_nat (- k)) l.

(** The loop of lines 334-336: [i] is the 1-based reference number. *)
Fixpoint context_parts (i : nat) (top_chunks : list scored_chunk)
  : list string :=
  match top_chunks with
  | [] => []
  | chunk_data :: r =>
      ("[Document Reference " ++ PyStr.of_nat i ++ ": "
         ++ sc_filename chunk_data ++ "]" ++ nl ++ sc_chunk chunk_data)
      :: context_parts (S i) r
  end.

Definition enhanced_prompt (context query : string) : string :=
  "You have access to relevant information from uploaded documents. Use this knowledge naturally in your response."
  ++ nl ++ nl ++ "Available Context:" ++ nl ++ context ++ nl ++ nl
  ++ "User Query: " ++ query ++ nl ++ nl
  ++ "Please provide a comprehensive and helpful response:".

(** [simple_search]. *)
Definition simple_search (s : rag) (query : string)
    (chat_id : option string) (top_k : Z) : string :=
  match chat_id with
  | None => query
  | Some c =>
      if negb (PyStr.truthy c) then query
      else
        match chat_documents s !! c with
        | None => query
        | Some [] => query
        | Some docs =>
            let query_words := PyStr.split (PyStr.lower query) in
            let top_chunks :=
              take_py top_k (sort_desc (relevant_chunks query_words docs)) in
            match top_chunks with
            | [] => query
            | _ =>
                enhanced_prompt
                  (PyStr.join (nl ++ nl) (context_parts 1 top_chunks)) query
            end
        end
  end.

Definition default_top_k : Z := 3.

(** The relevance score as the specification words it: the number of
    distinct query tokens that occur in the lower-cased chunk. *)
Definition distinct_token_score (query : string) (chunk : string) : nat :=
  let tokens := remove_dups (PyStr.split (PyStr.lower query)) in
  List.length
    (List.filter (fun word => PyStr.contains word (PyStr.lower chunk)) tokens).

(** ** The prompt composer and the remaining queries *)

(** The robot-face sign of the two web templates lies outside the code
    points below 256; it is carried as the four bytes of its UTF-8
    encoding. *)
Definition robot_face : string :=
  String (ascii_of_nat 240) (String (ascii_of_nat 159)
    (String (ascii_of_nat 164) (String (ascii_of_nat 150) EmptyString))).

(** [enhance_with_web_search]. *)
Definition enhance_with_web_search (query web_search_results : string)
  : string :=
  if negb (PyStr.truthy web_search_results) then query
  else
    "You have access to current web search results. Use this information to provide an up-to-date and comprehensive response."
    ++ nl ++ nl ++ "Current Web Information:" ++ nl ++ web_search_results
    ++ nl ++ nl ++ "User Query: " ++ query ++ nl ++ nl
    ++ "Please provide a comprehensive response using the latest information available. Note: This response includes real-time data from web search ("
    ++ robot_face ++ " Agent Response)." ++ nl ++ nl
    ++ "Please provide your response:".

(** The list [sources] of [combine_sources], lines 375-385. *)
Definition combine_sources_list (s : rag) (query web_search_results : string)
    (chat_id : option string) : list string :=
  ((if chat_truthy chat_id && has_documents s chat_id
    then
      let doc_context := simple_search s query chat_id default_top_k in
      if negb (String.eqb doc_context query)
      then ["Document Knowledge Base"] else []
    else [])
   ++ (if PyStr.truthy web_search_results
       then ["Current Web Information"] else []))%list.

(** The text built by lines 391-405 of [combine_sources]. *)
Definition combined_prompt (query document_context web_search_results : string)
  : string :=
  ("You have access to multiple information sources. Use all available information to provide a comprehensive response."
   ++ nl ++ nl)
  ++ (if PyStr.truthy document_context
         && negb (String.eqb document_context query)
      then "Document Context:" ++ nl ++ document_context ++ nl ++ nl
      else "")
  ++ (if PyStr.truthy web_search_results
      then "Current Web Information:" ++ nl ++ web_search_results ++ nl ++ nl
      else "")
  ++ ("User Query: " ++ query ++ nl ++ nl
      ++ "Note: This response combines document analysis with real-time web data ("
      ++ robot_face ++ " Agent Response)." ++ nl ++ nl
      ++ "Please provide a comprehensive response using all available sources:").

(** [combine_sources]. *)
Definition combine_sources (s : rag)
    (query document_context web_search_results : string)
    (chat_id : option string) : string :=
  match combine_sources_list s query web_search_results chat_id with
  | [] => query
  | _ => combined_prompt query document_context web_search_results
  end.

Definition url_indicators : list string :=
  [ "analyze and summarize the following content from:";
    "please analyze";
    "content summary:";
    "url:";
    "title:";
    "please provide a comprehensive summary" ].

(** [is_url_analysis_request]. *)
Definition is_url_analysis_request (message : string) : bool :=
  let message_lower := PyStr.lower message in
  existsb (fun indicator => PyStr.contains indicator message_lower)
    url_indicators.

(** An element of the list that [get_document_list] builds for a chat. *)
Record doc_item : Type := {
  item_id : string;
  item_filename : string;
  item_file_path : string;
  item_chunks : nat;
  item_upload_time : string
}.

(** [get_document_list] returns the registry itself when there is no chat
    identifier and a list built from the chat's records otherwise. *)
Inductive listing : Type :=
| Summaries (l : list doc_summary)
| Items (l : list doc_item).

(** [get_document_list]. A record has no "file_path" entry, so
    [doc_data.get("file_path", "")] is the empty string. *)
Definition get_document_list (s : rag) (chat_id : option string) : listing :=
  match chat_id with
  | None => Summaries (documents_metadata s)
  | Some c =>
      if negb (PyStr.truthy c) then Summaries (documents_metadata s)
      else
        match chat_documents s !! c with
        | None => Items []
        | Some d =>
            Items (List.map
                     (fun item : string * doc_data =>
                        {| item_id := fst item;
                           item_filename := doc_filename (snd item);
                           item_file_path := "";
                           item_chunks := List.length (doc_chunks (snd item));
                           item_upload_time := doc_upload_time (snd item) |})
                     d)
        end
  end.

(** ** Notions used to state the properties *)

(** The identifiers of the summaries registered for chat [c]. *)
Definition registry_ids (s : rag) (c : string) : list string :=
  List.map sum_id
    (List.filter (fun doc => chat_eqb (sum_chat_id doc) (Some c))
       (documents_metadata s)).

(** The identifiers of the records stored for chat [c]. *)
Definition store_ids (s : rag) (c : string) : list string :=
  List.map fst (docs_of s c).

(** The summaries of chat [c] correspond one-to-one with its records. *)
Definition mirrored (s : rag) (c : string) : Prop :=
  Permutation (registry_ids s c) (store_ids s c).

(** The states that calls of [process_document] and [delete_document]
    lead to from a fresh object. *)
Inductive reachable (E : collaborators) : rag -> Prop :=
| reach_init : reachable E init
| reach_ingest s t_record t_summary file_content filename chat_id :
    reachable E s ->
    reachable E (snd (process_document E t_record t_summary s file_content
                        filename chat_id))
| reach_delete s w filename chat_id :
    reachable E s ->
    reachable E (snd (delete_document E w s filename chat_id)).

(** How many times the token [t] occurs in the token list [l]. *)
Definition occurrences (t : string) (l : list string) : nat :=
  List.length (List.filter (String.eqb t) l).

(** One when [t] is the token [x], zero otherwise. *)
Definition hit (x t : string) : nat := if String.eqb t x then 1%nat else O.

(** A stored record is well formed: its text is not empty and its chunks
    are the chunking of its text with the default arguments. *)
Definition record_ok (item : string * doc_data) : Prop :=
  PyStr.truthy (doc_full_text (snd item)) = true /\
  chunk_text (S (String.length (doc_full_text (snd item))))
    (doc_full_text (snd item)) default_chunk_size default_overlap
  = Returned (doc_chunks (snd item)).

(** The Chat Store is well formed: no chat under the empty identifier, no
    identifier twice in a chat, every record well formed. *)
Definition store_ok (s : rag) : Prop :=
  forall c d,
    chat_documents s !! c = Some d ->
    PyStr.truthy c = true /\
    List.NoDup (List.map fst d) /\
    Forall record_ok d.

(** Whether a listing has an element. *)
Definition listing_nonempty (l : listing) : bool :=
  match l with
  | Summaries [] | Items [] => false
  | _ => true
  end.

(** The identifiers shown by a listing of a chat. *)
Definition listing_ids (l : listing) : list string :=
  match l with
  | Summaries r => List.map sum_id r
  | Items r => List.map item_id r
  end.

(** The storage answers the deletion without raising. *)
Definition storage_quiet (w : storage_reply) : Prop :=
  (exists b, cloud_delete_file w = Ok b) /\ (exists u, os_remove w = Ok u).

(** A pattern one of whose literals holds a trigger keyword: it can only
    match a query that the keyword list has already accepted. *)
Definition subsumed_by_trigger (p : list piece) : bool :=
  existsb
    (fun x =>
       match x with
       | Lit l => existsb (fun trigger => PyStr.contains trigger l)
                    search_triggers
       | DotStar => false
       end)
    p.

(** The pattern [when.*did.*happen]. *)
Definition when_did_happen : list piece :=
  [Lit "when"; DotStar; Lit "did"; DotStar; Lit "happen"].

(** ** Collaborators for running the model on examples *)

Module Sample.

Definition ascii_only (b : list Byte.byte) : bool :=
  forallb (fun x => (Byte.to_nat x <? 128)%nat) b.

(** The text after the last slash of a path. *)
Fixpoint final_component (acc : string) (path : string) : string :=
  match path with
  | EmptyString => acc
  | String c r =>
      if (nat_of_ascii c =? 47)%nat then final_component r r
      else final_component acc r
  end.

(** The position of the last dot among the characters from position [i]
    on, or [found] when there is none. *)
Fixpoint rfind_dot (i : nat) (name : string) (found : option nat)
  : option nat :=
  match name with
  | EmptyString => found
  | String c r =>
      rfind_dot (S i) r (if (nat_of_ascii c =? 46)%nat then Some i else found)
  end.

(** The suffix of a path: the text of its final component from the last
    dot on, when that dot is neither the first nor the last character of
    the component, and the empty string otherwise. *)
Definition suffix_of (path : string) : string :=
  let name := final_component path path in
  match rfind_dot 0 name None with
  | Some i =>
      if ((0 <? i) && (i <? String.length name - 1))%nat
      then String.substring i (String.length name - i) name
      else ""
  | None => ""
  end.

(** The first ten hexadecimal digits of the MD5 digest, tabulated for the
    contents "hello" and "world"; any other content gets those of the
    empty content. *)
Definition digest (b : list Byte.byte) : string :=
  let text := string_of_list_byte b in
  if String.eqb text "hello" then "5d41402abc"
  else if String.eqb text "world" then "7d793037a0"
  else "d41d8cd98f".

(** Local storage that always succeeds and plain-text decoding of 7-bit
    input. *)
Definition env : collaborators :=
  {| md5_hexdigest10 := digest;
     path_suffix := suffix_of;
     pdf_pages := fun _ => None;
     docx_raw_text := fun _ => None;
     utf8_decode := fun b =>
       if ascii_only b then Some (string_of_list_byte b) else None;
     use_cloudinary := false;
     has_cloudinary_service := false;
     cloudinary_upload := fun _ _ _ => Raise "not configured";
     local_write := fun _ _ => Ok tt |}.

(** A storage that finds the file and removes it. *)
Definition removed : storage_reply :=
  {| cloud_delete_file := Ok true;
     os_path_exists := true;
     os_remove := Ok tt |}.

(** A storage that finds the file and fails to remove it. *)
Definition denied : storage_reply :=
  {| cloud_delete_file := Raise "Permission denied";
     os_path_exists := true;
     os_remove := Raise "Permission denied" |}.

Definition hello : list Byte.byte := list_byte_of_string "hello".
Definition world : list Byte.byte := list_byte_of_string "world".

End Sample.

(** A text of 1000 letters followed by a full stop and one more letter. *)
Fixpoint letters (n : nat) (rest : string) : string :=
  match n with
  | O => rest
  | S n' => String "a" (letters n' rest)
  end.

Definition text_1002 : string := letters 1000 ".b".

(** * Properties *)

(** ** Chunker *)

Section ChunkerFacts.

Lemma get_in_range (s : string) (n : nat) :
  (n < String.length s)%nat -> exists c, String.get n s = Some c.
Proof.
  revert n. induction s as [|a s IH]; intros n Hn; simpl in *.
  - lia.
  - destruct n as [|n]; [eauto|]. apply IH. lia.
Qed.

Lemma index_in_range (text : string) (i : Z) :
  0 <= i < PyStr.len text -> exists c, PyStr.index text i = Some c.
Proof.
  intros [H0 Hlt]. unfold PyStr.index.
  destruct (0 <=? i) eqn:Hi; [|lia].
  apply get_in_range. unfold PyStr.len in Hlt. lia.
Qed.

(** The backward scan over valid indices never raises; it either keeps the
    default or stops just after a sentence end no farther back than the
    last index inspected. *)
Lemma scan_back_bounds (text : string) (n : nat) : forall (i dflt : Z),
  0 <= i - Z.of_nat n + 1 -> i < PyStr.len text ->
  exists e, scan_back text i n dflt = Some e /\
    (e = dflt \/
     (i - Z.of_nat n + 2 <= e <= i + 1 /\
      exists c, PyStr.index text (e - 1) = Some c /\ is_sentence_end c = true)).
Proof.
  induction n as [|n IH]; intros i dflt Hlo Hhi; simpl.
  - eauto.
  - destruct (index_in_range text i) as [c Hc]; [lia|].
    rewrite Hc. destruct (is_sentence_end c) eqn:Hs.
    + exists (i + 1). split; [reflexivity|]. right. split; [lia|].
      exists c. replace (i + 1 - 1) with i by lia. auto.
    + destruct (IH (i - 1) dflt) as [e [He Hcase]]; [lia|lia|].
      exists e. split; [exact He|].
      destruct Hcase as [->|[Hb Hc']]; [left; reflexivity|right].
      split; [lia|exact Hc'].
Qed.

(** When no inspected character ends a sentence, the default is kept. *)
Lemma scan_back_no_boundary (text : string) (n : nat) : forall (i dflt : Z),
  (forall j c, i - Z.of_nat n < j <= i -> PyStr.index text j = Some c ->
               is_sentence_end c = false) ->
  0 <= i - Z.of_nat n + 1 -> i < PyStr.len text ->
  scan_back text i n dflt = Some dflt.
Proof.
  induction n as [|n IH]; intros i dflt Hno Hlo Hhi; simpl.
  - reflexivity.
  - destruct (index_in_range text i) as [c Hc]; [lia|].
    rewrite Hc. rewrite (Hno i c) by (auto; lia).
    apply IH; [|lia|lia]. intros j c' Hj. apply Hno. lia.
Qed.

(** For a window that starts at a valid position the chosen end is
    defined. It is the naive end, or it lies just after a sentence end, at
    most one past the naive end and at least two past the lower limit of
    the scan, which is the larger of [start + chunk_size // 2] and the
    naive end minus 100. *)
Lemma window_end_bounds (text : string) (chunk_size start : Z) :
  1 <= chunk_size -> 0 <= start ->
  exists e, window_end text chunk_size start = Some e /\
    (e = start + chunk_size \/
     (start + chunk_size < PyStr.len text /\
      Z.max (start + chunk_size / 2) (start + chunk_size - 100) + 2 <= e
        <= start + chunk_size + 1 /\
      exists c, PyStr.index text (e - 1) = Some c /\ is_sentence_end c = true)).
Proof.
  intros Hcs Hstart. unfold window_end.
  destruct (start + chunk_size <? PyStr.len text) eqn:Hlt; [|eauto].
  apply Z.ltb_lt in Hlt.
  assert (Hhalf : 0 <= chunk_size / 2) by (apply Z.div_pos; lia).
  set (e0 := start + chunk_size) in *.
  set (lo := Z.max (start + chunk_size / 2) (e0 - 100)).
  destruct (Z_le_gt_dec (e0 - lo) 0) as [Hle|Hgt].
  - replace (Z.to_nat (e0 - lo)) with O by lia. simpl. eauto.
  - destruct (scan_back_bounds text (Z.to_nat (e0 - lo)) e0 e0)
      as [e [He Hcase]]; [lia|lia|].
    exists e. split; [exact He|].
    destruct Hcase as [->|[Hb Hc]]; [left; reflexivity|right].
    split; [exact Hlt|]. split; [|exact Hc]. subst lo. lia.
Qed.

(** The loop comes back whenever the overlap leaves room for progress:
    each iteration moves [start] strictly to the right. *)
Lemma chunk_loop_returns (text : string) (chunk_size overlap : Z) :
  1 <= chunk_size -> overlap < chunk_size ->
  overlap <= Z.max (chunk_size / 2) (chunk_size - 100) + 1 ->
  forall (fuel : nat) (start : Z) (chunks : list string),
    0 <= start < PyStr.len text ->
    PyStr.len text - start <= Z.of_nat fuel ->
    exists chunks', chunk_loop fuel text chunk_size overlap start chunks
                    = Returned chunks'.
Proof.
  intros Hcs Hov Hov'. induction fuel as [|fuel IH]; intros start chunks Hs Hf.
  - lia.
  - simpl. destruct (start <? PyStr.len text) eqn:Hlt; [|eauto].
    destruct (window_end_bounds text chunk_size start) as [e [He Hcase]];
      [lia|lia|].
    rewrite He.
    assert (Hprog : start < e - overlap).
    { destruct Hcase as [->|[_ [Hb _]]]; lia. }
    destruct (PyStr.len text <=? e - overlap) eqn:Hend; [eauto|].
    apply Z.leb_gt in Hend. apply IH; lia.
Qed.

Lemma chunk_loop_nonempty (text : string) (chunk_size overlap : Z) :
  forall (fuel : nat) (start : Z) (chunks chunks' : list string),
    Forall (fun c => c <> "") chunks ->
    chunk_loop fuel text chunk_size overlap start chunks = Returned chunks' ->
    Forall (fun c => c <> "") chunks'.
Proof.
  induction fuel as [|fuel IH]; intros start chunks chunks' Hall Hrun;
    simpl in Hrun.
  - discriminate.
  - destruct (start <? PyStr.len text); [|congruence].
    destruct (window_end text chunk_size start) as [e|]; [|discriminate].
    set (chunk := PyStr.strip (PyStr.slice text start e)) in *.
    assert (Hall' : Forall (fun c => c <> "")
              (if PyStr.truthy chunk then (chunks ++ [chunk])%list else chunks)).
    { destruct chunk eqn:Hc; simpl; [exact Hall|].
      apply Forall_app. split; [exact Hall|]. constructor; [discriminate|constructor]. }
    destruct (PyStr.len text <=? e - overlap).
    + inversion Hrun; subst. exact Hall'.
    + eapply IH; eauto.
Qed.

End ChunkerFacts.

(** With the default arguments the chunker returns on every text. *)
Lemma chunk_text_default_returns (text : string) :
  exists chunks,
    chunk_text (S (String.length text)) text default_chunk_size default_overlap
    = Returned chunks.
Proof.
  unfold chunk_text.
  destruct (PyStr.len text <=? default_chunk_size) eqn:Hshort; [eauto|].
  apply Z.leb_gt in Hshort. unfold default_chunk_size, default_overlap in *.
  apply chunk_loop_returns.
  - lia.
  - lia.
  - vm_compute. discriminate.
  - lia.
  - unfold PyStr.len. lia.
Qed.

Lemma loop_abc_step (fuel : nat) (chunks : list string) :
  chunk_loop (S fuel) "abc" 2 2 0 chunks
  = chunk_loop fuel "abc" 2 2 0 (chunks ++ ["ab"])%list.
Proof. reflexivity. Qed.

Lemma loop_abc_runs (fuel : nat) : forall chunks,
  chunk_loop fuel "abc" 2 2 0 chunks = StillRunning.
Proof.
  induction fuel as [|fuel IH]; intros chunks; [reflexivity|].
  rewrite loop_abc_step. apply IH.
Qed.

Lemma loop_snap_first (fuel : nat) :
  chunk_loop (S fuel) "aaaaaa.aaaa" 10 9 0 []
  = chunk_loop fuel "aaaaaa.aaaa" 10 9 (-2) ["aaaaaa."].
Proof. reflexivity. Qed.

Lemma loop_snap_step (fuel : nat) (chunks : list string) :
  chunk_loop (S fuel) "aaaaaa.aaaa" 10 9 (-2) chunks
  = chunk_loop fuel "aaaaaa.aaaa" 10 9 (-2) chunks.
Proof. reflexivity. Qed.

Lemma loop_snap_runs (fuel : nat) : forall chunks,
  chunk_loop fuel "aaaaaa.aaaa" 10 9 (-2) chunks = StillRunning.
Proof.
  induction fuel as [|fuel IH]; intros chunks; [reflexivity|].
  rewrite loop_snap_step. apply IH.
Qed.

(** C1. The loop of [chunk_text] does not always come back. With
    [overlap >= chunk_size] (text "abc", chunk_size 2, overlap 2) every
    iteration leaves [start] at 0; and with an overlap inside
    [0, chunk_size) (an 11-character text with a full stop at index 6,
    chunk_size 10, overlap 9) the end is pulled back to 7, so [start]
    becomes -2 and stays there. In both runs no number of iterations is
    enough for the call to return. *)
Theorem chunk_text_can_run_forever :
  (forall fuel, chunk_text fuel "abc" 2 2 = StillRunning) /\
  (window_end "abc" 2 0 = Some 2) /\
  (forall fuel, chunk_text fuel "aaaaaa.aaaa" 10 9 = StillRunning) /\
  (window_end "aaaaaa.aaaa" 10 0 = Some 7 /\
   window_end "aaaaaa.aaaa" 10 (-2) = Some 7).
Proof.
  split; [|split; [|split]].
  - intros fuel. unfold chunk_text.
    change (PyStr.len "abc" <=? 2) with false. cbv iota.
    apply loop_abc_runs.
  - reflexivity.
  - intros [|fuel]; [reflexivity|]. unfold chunk_text.
    change (PyStr.len "aaaaaa.aaaa" <=? 10) with false. cbv iota.
    rewrite loop_snap_first. apply loop_snap_runs.
  - split; reflexivity.
Qed.

(** C6. The backward scan starts at the index of the naive end itself, which
    lies outside the window: when the character there ends a sentence,
    the chosen end is one to the right of the naive end. With chunk_size 2
    the first window of "ab.c" ends at 3; with the default arguments the
    first window of [text_1002] ends at 1001 and the first chunk has 1001
    characters. *)
Theorem window_end_can_exceed_naive_end :
  window_end "ab.c" 2 0 = Some 3 /\
  chunk_text 4 "ab.c" 2 0 = Returned ["ab."; "c"] /\
  window_end text_1002 default_chunk_size 0 = Some 1001 /\
  exists first rest,
    chunk_text 1003 text_1002 default_chunk_size default_overlap
    = Returned (first :: rest) /\ String.length first = 1001%nat.
Proof.
  split; [reflexivity|]. split; [reflexivity|]. split; [vm_compute; reflexivity|].
  destruct (chunk_text 1003 text_1002 default_chunk_size default_overlap)
    as [[|first rest]| |] eqn:Hrun; vm_compute in Hrun; try discriminate.
  exists first, rest. split; [reflexivity|].
  inversion Hrun as [[Hfirst Hrest]]. vm_compute. reflexivity.
Qed.

(** C5, as stated, fails: a short text is returned as it is, neither
    trimmed nor dropped when empty. *)
Lemma chunk_text_short_not_trimmed :
  chunk_text 1 " a " default_chunk_size default_overlap = Returned [" a "] /\
  PyStr.strip " a " = "a" /\
  [" a "] <> [PyStr.strip " a "] /\
  chunk_text 1 "" default_chunk_size default_overlap = Returned [""].
Proof.
  split; [reflexivity|]. split; [reflexivity|]. split; [|reflexivity].
  vm_compute. discriminate.
Qed.

(** C5, amended. A text no longer than [chunk_size] is returned whole as
    the only element, untrimmed. For a longer text every string of a
    returned sequence is non-empty, and the call does return when the
    overlap leaves room for progress. *)
Theorem chunk_text_short_whole_long_nonempty :
  (forall fuel text chunk_size overlap,
     PyStr.len text <= chunk_size ->
     chunk_text fuel text chunk_size overlap = Returned [text]) /\
  (forall fuel text chunk_size overlap chunks,
     chunk_size < PyStr.len text ->
     chunk_text fuel text chunk_size overlap = Returned chunks ->
     Forall (fun c => c <> "") chunks) /\
  (forall text chunk_size overlap,
     1 <= chunk_size < PyStr.len text -> overlap < chunk_size ->
     overlap <= Z.max (chunk_size / 2) (chunk_size - 100) + 1 ->
     exists chunks,
       chunk_text (String.length text) text chunk_size overlap
       = Returned chunks /\
       Forall (fun c => c <> "") chunks).
Proof.
  split; [|split].
  - intros fuel text chunk_size overlap Hshort. unfold chunk_text.
    apply Z.leb_le in Hshort. rewrite Hshort. reflexivity.
  - intros fuel text chunk_size overlap chunks Hlong Hrun.
    unfold chunk_text in Hrun. apply Z.leb_gt in Hlong. rewrite Hlong in Hrun.
    eapply chunk_loop_nonempty; [|exact Hrun]. constructor.
  - intros text chunk_size overlap [Hcs Hlong] Hov Hov'.
    unfold chunk_text. pose proof Hlong as Hgt. apply Z.leb_gt in Hgt.
    rewrite Hgt.
    destruct (chunk_loop_returns text chunk_size overlap Hcs Hov Hov'
                (String.length text) 0 []) as [chunks Hrun].
    + lia.
    + unfold PyStr.len. lia.
    + exists chunks. split; [exact Hrun|].
      eapply chunk_loop_nonempty; [|exact Hrun]. constructor.
Qed.

Lemma chunk_text_short_whole_long_nonempty_witness :
  chunk_text 1 " a " 1000 200 = Returned [" a "] /\
  Forall (fun c => c <> "") ["ab."; "c"] /\
  exists chunks,
    chunk_text 4 "ab.c" 2 0 = Returned chunks /\
    Forall (fun c => c <> "") chunks.
Proof.
  destruct chunk_text_short_whole_long_nonempty as [Hshort [Hlong Hret]].
  split; [|split].
  - apply (Hshort 1%nat " a " 1000 200). vm_compute. discriminate.
  - apply (Hlong 4%nat "ab.c" 2 0 ["ab."; "c"]); [reflexivity|reflexivity].
  - apply (Hret "ab.c" 2 0).
    + split; [lia|reflexivity].
    + lia.
    + vm_compute. discriminate.
Defined.

(** ** Retriever: the relevance score *)

Section ScoreFacts.


Variable P : string -> bool.

Lemma list_sum_zero {A : Type} (X : list A) :
  list_sum (List.map (fun _ => O) X) = O.
Proof. induction X; simpl; auto. Qed.

Lemma list_sum_plus {A : Type} (f g : A -> nat) (X : list A) :
  list_sum (List.map (fun t => (f t + g t)%nat) X)
  = (list_sum (List.map f X) + list_sum (List.map g X))%nat.
Proof. induction X as [|a X IH]; simpl; [reflexivity|]. rewrite IH. lia. Qed.


Lemma hits_absent (x : string) (D : list string) :
  x ∉ D -> list_sum (List.map (hit x) (List.filter P D)) = O.
Proof.
  induction D as [|d D IH]; intros Hx; simpl; [reflexivity|].
  apply not_elem_of_cons in Hx as [Hne Hx].
  destruct (P d); simpl; [|auto].
  unfold hit at 1. destruct (String.eqb_spec d x); [congruence|]. auto.
Qed.

Lemma hits_present (x : string) (D : list string) :
  NoDup D -> x ∈ D ->
  list_sum (List.map (hit x) (List.filter P D))
  = if P x then 1%nat else O.
Proof.
  induction D as [|d D IH]; intros Hnd Hx.
  - inversion Hx.
  - apply NoDup_cons in Hnd as [Hd Hnd]. simpl.
    destruct (decide (d = x)) as [->|Hne].
    + destruct (P x); simpl.
      * unfold hit at 1. rewrite String.eqb_refl.
        rewrite hits_absent by exact Hd. reflexivity.
      * apply hits_absent. exact Hd.
    + apply elem_of_cons in Hx as [Heq|Hx]; [congruence|].
      destruct (P d); simpl; [|auto].
      unfold hit at 1. destruct (String.eqb_spec d x); [congruence|]. auto.
Qed.

(** Counting the tokens of [l] that satisfy [P] is summing, over the
    distinct tokens that satisfy [P], how often each occurs in [l]. *)
Lemma filter_length_by_token (l D : list string) :
  NoDup D -> (forall x, x ∈ l -> x ∈ D) ->
  List.length (List.filter P l)
  = list_sum (List.map (fun t => occurrences t l) (List.filter P D)).
Proof.
  intros Hnd. induction l as [|x l IH]; intros Hsub.
  - simpl. unfold occurrences. simpl. symmetry. apply list_sum_zero.
  - assert (Hrec : forall t, occurrences t (x :: l)
                             = (hit x t + occurrences t l)%nat).
    { intros t. unfold occurrences, hit. simpl.
      destruct (String.eqb t x); reflexivity. }
    rewrite (map_ext _ _ Hrec), list_sum_plus.
    rewrite hits_present; [|exact Hnd|apply Hsub; left].
    rewrite <- IH by (intros y Hy; apply Hsub; right; exact Hy).
    simpl. destruct (P x); reflexivity.
Qed.

Lemma occurrences_pos (t : string) (l : list string) :
  t ∈ l -> (1 <= occurrences t l)%nat.
Proof.
  induction l as [|x l IH]; intros Ht; [inversion Ht|].
  unfold occurrences in *. simpl.
  destruct (String.eqb_spec t x); simpl; [lia|].
  apply elem_of_cons in Ht as [Heq|Ht]; [congruence|auto].
Qed.

Lemma occurrences_NoDup (t : string) (l : list string) :
  NoDup l -> (occurrences t l <= 1)%nat.
Proof.
  induction l as [|x l IH]; intros Hnd; unfold occurrences in *; simpl; [lia|].
  apply NoDup_cons in Hnd as [Hx Hnd].
  destruct (String.eqb_spec t x) as [->|Hne]; simpl; [|auto].
  assert (List.filter (String.eqb x) l = []) as ->; [|simpl; lia].
  clear IH Hnd. induction l as [|y l IH]; [reflexivity|]. simpl.
  apply not_elem_of_cons in Hx as [Hne Hx].
  destruct (String.eqb_spec x y); [congruence|auto].
Qed.

Lemma list_sum_ge_length {A : Type} (f : A -> nat) (X : list A) :
  (forall t, In t X -> (1 <= f t)%nat) ->
  (List.length X <= list_sum (List.map f X))%nat.
Proof.
  induction X as [|a X IH]; intros H; simpl; [lia|].
  specialize (H a (or_introl eq_refl)) as Ha.
  assert (List.length X <= list_sum (List.map f X))%nat
    by (apply IH; intros; apply H; right; auto).
  lia.
Qed.

Lemma list_sum_le_length {A : Type} (f : A -> nat) (X : list A) :
  (forall t, In t X -> (f t <= 1)%nat) ->
  (list_sum (List.map f X) <= List.length X)%nat.
Proof.
  induction X as [|a X IH]; intros H; simpl; [lia|].
  specialize (H a (or_introl eq_refl)) as Ha.
  assert (list_sum (List.map f X) <= List.length X)%nat
    by (apply IH; intros; apply H; right; auto).
  lia.
Qed.

End ScoreFacts.

Lemma relevant_chunks_scores (query_words : list string)
    (docs : list (string * doc_data)) (x : scored_chunk) :
  In x (relevant_chunks query_words docs) ->
  sc_score x = relevance_score query_words (sc_chunk x) /\
  (0 < sc_score x)%nat.
Proof.
  unfold relevant_chunks. intros Hx.
  apply in_flat_map in Hx as [item [_ Hx]].
  apply in_flat_map in Hx as [chunk [_ Hx]].
  destruct (0 <? relevance_score query_words chunk)%nat eqn:Hpos.
  - destruct Hx as [<-|[]]. simpl. split; [reflexivity|].
    apply Nat.ltb_lt. exact Hpos.
  - destruct Hx.
Qed.

(** C3, as stated, fails: a token repeated in the query is counted once
    per repetition. The query "a a" scores 2 on the chunk "a", where one
    distinct token is found. *)
Lemma repeated_token_counts_twice :
  relevance_score (PyStr.split (PyStr.lower "a a")) "a" = 2%nat /\
  distinct_token_score "a a" "a" = 1%nat /\
  relevance_score (PyStr.split (PyStr.lower "a a")) "a"
  <> distinct_token_score "a a" "a".
Proof.
  split; [reflexivity|]. split; [reflexivity|]. vm_compute. discriminate.
Qed.

(** C3, amended. The relevance score that [simple_search] gives a chunk is
    the number of query tokens, each counted as often as it occurs in the
    query, that are found in the lower-cased chunk: the sum over the
    distinct found tokens of their number of occurrences in the query. It
    is never below the number of distinct found tokens and equals it when
    the query tokens are pairwise distinct. *)
Theorem relevance_score_counts_repetitions (query chunk : string) :
  let query_words := PyStr.split (PyStr.lower query) in
  let found := fun word => PyStr.contains word (PyStr.lower chunk) in
  relevance_score query_words chunk
  = list_sum (List.map (fun t => occurrences t query_words)
                (List.filter found (remove_dups query_words))) /\
  (distinct_token_score query chunk <= relevance_score query_words chunk)%nat /\
  (NoDup query_words ->
   relevance_score query_words chunk = distinct_token_score query chunk) /\
  (forall docs x, In x (relevant_chunks query_words docs) ->
     sc_score x = relevance_score query_words (sc_chunk x)).
Proof.
  intros query_words found.
  assert (Hsum : relevance_score query_words chunk
    = list_sum (List.map (fun t => occurrences t query_words)
                  (List.filter found (remove_dups query_words)))).
  { unfold relevance_score. apply filter_length_by_token.
    - apply NoDup_remove_dups.
    - intros x Hx. apply elem_of_remove_dups. exact Hx. }
  assert (Hin : forall t, In t (List.filter found (remove_dups query_words)) ->
                          t ∈ query_words).
  { intros t Ht. apply filter_In in Ht as [Ht _].
    apply list_elem_of_In in Ht. rewrite elem_of_remove_dups in Ht. exact Ht. }
  split; [exact Hsum|]. split; [|split].
  - rewrite Hsum. unfold distinct_token_score. fold query_words. fold found.
    apply list_sum_ge_length. intros t Ht. apply occurrences_pos. auto.
  - intros Hnd. apply Nat.le_antisymm.
    + rewrite Hsum. unfold distinct_token_score. fold query_words. fold found.
      apply list_sum_le_length. intros t _. apply occurrences_NoDup. exact Hnd.
    + rewrite Hsum. unfold distinct_token_score. fold query_words. fold found.
      apply list_sum_ge_length. intros t Ht. apply occurrences_pos. auto.
  - intros docs x Hx. apply (relevant_chunks_scores _ _ _ Hx).
Qed.

Lemma relevance_score_counts_repetitions_witness :
  relevance_score ["b"; "a"; "b"] "abc" = (2 + 1)%nat /\
  relevance_score ["a"; "b"] "abc" = distinct_token_score "a b" "abc" /\
  sc_score {| sc_chunk := "abc"; sc_score := 2; sc_filename := "a.txt" |}
  = relevance_score ["a"; "b"] "abc".
Proof.
  split; [|split].
  - exact (proj1 (relevance_score_counts_repetitions "b a b" "abc")).
  - apply (proj1 (proj2 (proj2
             (relevance_score_counts_repetitions "a b" "abc")))).
    vm_compute. compute_done.
  - apply (proj2 (proj2 (proj2
             (relevance_score_counts_repetitions "a b" "abc")))
             [("5d41402abc",
               {| doc_filename := "a.txt"; doc_chunks := ["abc"];
                  doc_full_text := "abc"; doc_upload_time := "t1";
                  doc_file_metadata :=
                    {| storage_type := "local"; file_path := "documents/a" |}
               |})]).
    left. reflexivity.
Defined.

(** ** Classifier *)

Lemma lower_char_idempotent (c : ascii) :
  PyStr.lower_char (PyStr.lower_char c) = PyStr.lower_char c.
Proof. destruct c as [[] [] [] [] [] [] [] []]; reflexivity. Qed.

Lemma lower_idempotent (s : string) : PyStr.lower (PyStr.lower s) = PyStr.lower s.
Proof.
  induction s as [|c s IH]; simpl; [reflexivity|].
  rewrite lower_char_idempotent, IH. reflexivity.
Qed.

(** C4. A document-focused phrase anywhere in the lower-cased query makes
    the classifier answer false, whatever else the query holds; the answer
    depends on the query only through its lower-cased form, and phrases
    are found inside longer words; the three sample queries are classified
    as the specification lists them. *)
Theorem should_trigger_web_search_exclusion_first :
  (forall query keyword,
     In keyword no_search_keywords ->
     PyStr.contains keyword (PyStr.lower query) = true ->
     should_trigger_web_search query = false) /\
  (forall q1 q2,
     PyStr.lower q1 = PyStr.lower q2 ->
     should_trigger_web_search q1 = should_trigger_web_search q2) /\
  (forall query,
     should_trigger_web_search (PyStr.lower query)
     = should_trigger_web_search query) /\
  should_trigger_web_search "what is the weather in Paris today" = true /\
  should_trigger_web_search "summarize this document" = false /\
  should_trigger_web_search "hello" = false /\
  should_trigger_web_search "Latest NEWS on my PROFILE today" = false.
Proof.
  split; [|split; [|split]].
  - intros query keyword Hin Hsub. unfold should_trigger_web_search, classify_lower.
    assert (Hex : existsb (fun k => PyStr.contains k (PyStr.lower query))
                    no_search_keywords = true).
    { apply existsb_exists. exists keyword. split; assumption. }
    rewrite Hex. reflexivity.
  - intros q1 q2 Heq. unfold should_trigger_web_search. rewrite Heq. reflexivity.
  - intros query. unfold should_trigger_web_search.
    rewrite lower_idempotent. reflexivity.
  - repeat split; vm_compute; reflexivity.
Qed.

Lemma should_trigger_web_search_exclusion_first_witness :
  should_trigger_web_search "Today's weather, from the DOCUMENT" = false /\
  should_trigger_web_search "WEATHER in Rome" = should_trigger_web_search "weather in rome".
Proof.
  destruct should_trigger_web_search_exclusion_first as [Hex [Hlow _]].
  split.
  - apply (Hex "Today's weather, from the DOCUMENT" "document").
    + simpl. auto.
    + vm_compute. reflexivity.
  - apply (Hlow "WEATHER in Rome" "weather in rome"). vm_compute. reflexivity.
Defined.

(** ** Retriever on empty queries and empty chats *)

Lemma flat_map_all_nil {A B : Type} (f : A -> list B) (l : list A) :
  (forall x, f x = []) -> List.flat_map f l = [].
Proof.
  intros Hf. induction l as [|a l IH]; simpl; [reflexivity|].
  rewrite Hf, IH. reflexivity.
Qed.

Lemma relevant_chunks_no_words (docs : list (string * doc_data)) :
  relevant_chunks [] docs = [].
Proof.
  unfold relevant_chunks. apply flat_map_all_nil. intros item.
  apply flat_map_all_nil. intros chunk. reflexivity.
Qed.

Lemma take_py_nil {A : Type} (k : Z) : take_py k (@nil A) = [].
Proof. unfold take_py. destruct (0 <=? k); apply firstn_nil. Qed.

(** C8. The classifier answers false on the empty query; the retriever
    returns the empty query unchanged for every chat, with or without
    documents, and returns any query unchanged for a chat without
    documents. *)
Theorem empty_query_and_empty_chat_unchanged :
  should_trigger_web_search "" = false /\
  (forall s chat_id top_k, simple_search s "" chat_id top_k = "") /\
  (forall s query chat_id top_k,
     has_documents s chat_id = false ->
     simple_search s query chat_id top_k = query) /\
  (forall s query c top_k,
     docs_of s c = [] ->
     simple_search s query (Some c) top_k = query).
Proof.
  split; [reflexivity|]. split; [|split].
  - intros s [c|] top_k; simpl; [|reflexivity].
    destruct (PyStr.truthy c); simpl; [|reflexivity].
    destruct (chat_documents s !! c) as [[|d docs]|]; try reflexivity.
    change (PyStr.split (PyStr.lower "")) with (@nil string).
    rewrite relevant_chunks_no_words. simpl. rewrite take_py_nil. reflexivity.
  - intros s query [c|] top_k Hno; simpl; [|reflexivity].
    unfold has_documents in Hno. simpl in Hno.
    destruct (PyStr.truthy c); simpl in *; [|reflexivity].
    destruct (chat_documents s !! c) as [[|d docs]|]; try reflexivity.
    simpl in Hno. discriminate.
  - intros s query c top_k Hno. unfold docs_of in Hno. simpl.
    destruct (PyStr.truthy c); simpl; [|reflexivity].
    destruct (chat_documents s !! c) as [[|d docs]|]; try reflexivity.
    simpl in Hno. discriminate.
Qed.

Lemma empty_query_and_empty_chat_unchanged_witness :
  has_documents init (Some "c") = false /\
  simple_search init "what is new" (Some "c") default_top_k = "what is new" /\
  simple_search init "what is new" (Some "") default_top_k = "what is new".
Proof.
  destruct empty_query_and_empty_chat_unchanged as [_ [_ [Hno Hdocs]]].
  split; [reflexivity|]. split.
  - apply (Hno init "what is new" (Some "c") default_top_k). reflexivity.
  - apply (Hdocs init "what is new" "" default_top_k). reflexivity.
Defined.

(** ** Ingestion and deletion *)

Section StoreFacts.
Variable E : collaborators.

Lemma chat_eqb_eq (a b : option string) : chat_eqb a b = true <-> a = b.
Proof.
  destruct a as [x|], b as [y|]; simpl; split; intros H;
    try discriminate; try reflexivity.
  - apply String.eqb_eq in H. congruence.
  - inversion H. apply String.eqb_refl.
Qed.

Lemma summary_matches_iff (filename : string) (chat_id : option string)
    (doc : doc_summary) :
  summary_matches filename chat_id doc = true
  <-> sum_filename doc = filename /\ sum_chat_id doc = chat_id.
Proof.
  unfold summary_matches. rewrite andb_true_iff, String.eqb_eq, chat_eqb_eq.
  reflexivity.
Qed.


Lemma has_documents_truthy (s : rag) (c : string) :
  PyStr.truthy c = true ->
  has_documents s (Some c)
  = match chat_documents s !! c with
    | Some d => (0 <? List.length d)%nat
    | None => false
    end.
Proof. intros H. unfold has_documents. simpl. rewrite H. reflexivity. Qed.

(** What a call of [process_document] does to the state: nothing unless it
    succeeds, and on success one summary is appended and, for a truthy
    chat identifier, one record is stored under the content digest. *)
Lemma process_document_effect (t_record t_summary : string) (s : rag)
    (file_content : list Byte.byte) (filename : string)
    (chat_id : option string) :
  let r := process_document E t_record t_summary s file_content filename
             chat_id in
  (snd r = s /\ forall info, fst r <> Ingested info) \/
  (exists info entry,
     fst r = Ingested info /\
     documents_metadata (snd r) = (documents_metadata s ++ [entry])%list /\
     sum_filename entry = filename /\ sum_chat_id entry = chat_id /\
     sum_id entry = md5_hexdigest10 E file_content /\
     match chat_id with
     | Some c =>
         if PyStr.truthy c
         then exists record,
                doc_filename record = filename /\
                chat_documents (snd r)
                = <[ c := Dict.set (md5_hexdigest10 E file_content) record
                            (docs_of s c) ]> (chat_documents s)
         else chat_documents (snd r) = chat_documents s
     | None => chat_documents (snd r) = chat_documents s
     end).
Proof.
  unfold process_document, processing_failed.
  destruct (save_file E file_content filename chat_id) as [meta|msg];
    [|left; split; [reflexivity|discriminate]].
  destruct (extract_text E file_content filename) as [text|msg];
    [|left; split; [reflexivity|discriminate]].
  destruct (PyStr.truthy text); simpl;
    [|left; split; [reflexivity|discriminate]].
  destruct (chunk_text _ text default_chunk_size default_overlap)
    as [chunks| |]; try (left; split; [reflexivity|discriminate]).
  right. eexists. eexists. simpl.
  split; [reflexivity|]. split; [reflexivity|]. simpl.
  split; [reflexivity|]. split; [reflexivity|]. split; [reflexivity|].
  destruct chat_id as [c|]; [|reflexivity].
  destruct (PyStr.truthy c); [|reflexivity].
  eexists. split; [|reflexivity]. reflexivity.
Qed.

(** The chunker never hangs inside [process_document]. *)
Lemma process_document_returns (t_record t_summary : string) (s : rag)
    (file_content : list Byte.byte) (filename : string)
    (chat_id : option string) :
  fst (process_document E t_record t_summary s file_content filename chat_id)
  <> IngestHangs.
Proof.
  unfold process_document, processing_failed.
  destruct (save_file E file_content filename chat_id); [|discriminate].
  destruct (extract_text E file_content filename) as [text|]; [|discriminate].
  destruct (PyStr.truthy text); simpl; [|discriminate].
  destruct (chunk_text_default_returns text) as [chunks ->]. discriminate.
Qed.


Lemma find_no_match {A : Type} (p : A -> bool) (l : list A) :
  (forall x, In x l -> p x = false) -> List.find p l = None.
Proof.
  induction l as [|a l IH]; intros H; simpl; [reflexivity|].
  rewrite (H a) by (left; reflexivity). apply IH. intros; apply H; right; auto.
Qed.

Lemma delete_from_storage_quiet (w : storage_reply) (meta : file_metadata) :
  storage_quiet w -> exists b, delete_from_storage E w meta = Ok b.
Proof.
  intros [[b Hcloud] [u Hremove]]. unfold delete_from_storage.
  destruct (String.eqb (storage_type meta) "cloudinary"
            && has_cloudinary_service E); [eauto|].
  destruct (String.eqb (storage_type meta) "local"); [|eauto].
  destruct (PyStr.truthy (file_path meta) && os_path_exists w); [|eauto].
  rewrite Hremove. eauto.
Qed.

(** With a storage that does not raise, a found document is always
    removed from memory. *)
Lemma delete_document_quiet (w : storage_reply) (s : rag) (filename : string)
    (chat_id : option string) :
  storage_quiet w ->
  exists b,
    delete_document E w s filename chat_id
    = match List.find (summary_matches filename chat_id)
              (documents_metadata s) with
      | None => (false, s)
      | Some _ => remove_from_memory b s filename chat_id
      end.
Proof.
  intros Hw. unfold delete_document.
  destruct (List.find _ (documents_metadata s)) as [doc|]; [|exists false; reflexivity].
  destruct (delete_from_storage_quiet w (sum_file_metadata doc) Hw) as [b ->].
  exists b. reflexivity.
Qed.

(** Whatever the storage does, a call either changes nothing or removes
    from memory. *)
Lemma delete_document_cases (w : storage_reply) (s : rag) (filename : string)
    (chat_id : option string) :
  snd (delete_document E w s filename chat_id) = s \/
  exists b,
    delete_document E w s filename chat_id
    = remove_from_memory b s filename chat_id.
Proof.
  unfold delete_document.
  destruct (List.find _ (documents_metadata s)) as [doc|]; [|left; reflexivity].
  destruct (delete_from_storage E w (sum_file_metadata doc)) as [b|msg];
    [right; exists b|left]; reflexivity.
Qed.

End StoreFacts.

(** C7. When the extracted text is empty, [process_document] raises and
    leaves the Chat Store and the Global Registry as they were. *)
Theorem process_document_empty_text_fails (E : collaborators)
    (t_record t_summary : string) (s : rag) (file_content : list Byte.byte)
    (filename : string) (chat_id : option string) :
  extract_text E file_content filename = Ok "" ->
  exists msg,
    process_document E t_record t_summary s file_content filename chat_id
    = (IngestFailed msg, s).
Proof.
  intros Hempty. unfold process_document, processing_failed.
  destruct (save_file E file_content filename chat_id) as [meta|msg];
    [|eauto].
  rewrite Hempty. simpl. eauto.
Qed.

Lemma process_document_empty_text_fails_witness :
  exists msg,
    process_document Sample.env "t1" "t2" init [] "notes.txt" (Some "chat-1")
    = (IngestFailed msg, init).
Proof.
  apply (process_document_empty_text_fails Sample.env "t1" "t2" init []
           "notes.txt" (Some "chat-1")).
  reflexivity.
Defined.




(** C10. Without a chat identifier ([None] or the empty string) the
    retriever returns the query unchanged. Its answer never depends on the
    Global Registry, an ingestion without chat identifier leaves the
    per-chat store untouched, and after such an ingestion, with the
    registry holding a document, the query still comes back unchanged. *)
Theorem simple_search_without_chat_returns_query :
  (forall s query top_k,
     simple_search s query None top_k = query /\
     simple_search s query (Some "") top_k = query) /\
  (forall registry registry' store query chat_id top_k,
     simple_search {| documents_metadata := registry;
                      chat_documents := store |} query chat_id top_k
     = simple_search {| documents_metadata := registry';
                        chat_documents := store |} query chat_id top_k) /\
  (forall E t_record t_summary s file_content filename,
     chat_documents
       (snd (process_document E t_record t_summary s file_content filename
               None))
     = chat_documents s) /\
  (let s1 := snd (process_document Sample.env "t1" "t2" init Sample.hello
                    "a.txt" None) in
   has_documents s1 None = true /\
   List.length (documents_metadata s1) = 1%nat /\
   simple_search s1 "hello" None default_top_k = "hello").
Proof.
  split; [|split; [|split]].
  - intros s query top_k. split; reflexivity.
  - intros registry registry' store query chat_id top_k. reflexivity.
  - intros E t_record t_summary s file_content filename.
    destruct (process_document_effect E t_record t_summary s file_content
                filename None)
      as [[-> _]|[info [entry [_ [_ [_ [_ [_ Hstore]]]]]]]];
      [reflexivity|exact Hstore].
  - cbv zeta. split; [reflexivity|]. split; reflexivity.
Qed.

(** ** Consistency of the Global Registry with the Chat Store *)


Lemma process_document_ingested (E : collaborators)
    (t_record t_summary : string) (s : rag) (file_content : list Byte.byte)
    (filename c : string) (info : ingest_info) (s1 : rag) :
  PyStr.truthy c = true ->
  process_document E t_record t_summary s file_content filename (Some c)
  = (Ingested info, s1) ->
  exists record entry,
    doc_filename record = filename /\
    sum_filename entry = filename /\ sum_chat_id entry = Some c /\
    sum_id entry = md5_hexdigest10 E file_content /\
    s1 = {| documents_metadata := (documents_metadata s ++ [entry])%list;
            chat_documents :=
              <[ c := Dict.set (md5_hexdigest10 E file_content) record
                        (docs_of s c) ]> (chat_documents s) |}.
Proof.
  intros Htruthy Hrun.
  pose proof (process_document_effect E t_record t_summary s file_content
                filename (Some c)) as Heff.
  cbv zeta in Heff. rewrite Hrun in Heff. simpl in Heff.
  destruct Heff as [[_ Hnot]|[info' [entry [_ [Hreg [Hfn [Hchat [Hid Hstore]]]]]]]].
  { exfalso. exact (Hnot info eq_refl). }
  rewrite Htruthy in Hstore. destruct Hstore as [record [Hrec Hstore]].
  exists record, entry. repeat (split; [assumption|]).
  destruct s1 as [reg1 store1]. simpl in *. congruence.
Qed.

(** Whether an ingestion succeeds does not depend on the state. *)
Lemma process_document_succeeds_again (E : collaborators)
    (t1 t2 t3 t4 : string) (s s' : rag) (file_content : list Byte.byte)
    (filename : string) (chat_id : option string) (info : ingest_info)
    (s1 : rag) :
  process_document E t1 t2 s file_content filename chat_id
  = (Ingested info, s1) ->
  exists s2,
    process_document E t3 t4 s' file_content filename chat_id
    = (Ingested info, s2).
Proof.
  unfold process_document, processing_failed.
  destruct (save_file E file_content filename chat_id); [|discriminate].
  destruct (extract_text E file_content filename) as [text|]; [|discriminate].
  destruct (PyStr.truthy text); simpl; [|discriminate].
  destruct (chunk_text _ text default_chunk_size default_overlap);
    try discriminate.
  intros Hrun. inversion Hrun; subst. eauto.
Qed.

(** C2. The registry does not always mirror the store. Ingesting the same
    content twice into one chat stores one record, the second replacing
    the first under the same identifier, and registers two summaries: the
    state is reachable and the summaries of the chat are not in one-to-one
    correspondence with its records. *)
Theorem reingest_breaks_registry_mirror (E : collaborators)
    (t1 t2 t3 t4 : string) (file_content : list Byte.byte)
    (filename c : string) (info : ingest_info) (s1 : rag) :
  PyStr.truthy c = true ->
  process_document E t1 t2 init file_content filename (Some c)
  = (Ingested info, s1) ->
  let s2 := snd (process_document E t3 t4 s1 file_content filename (Some c)) in
  let file_id := md5_hexdigest10 E file_content in
  reachable E s2 /\
  registry_ids s2 c = [file_id; file_id] /\
  store_ids s2 c = [file_id] /\
  ~ mirrored s2 c.
Proof.
  intros Htruthy Hrun s2 file_id.
  assert (Hs1 : s1 = snd (process_document E t1 t2 init file_content filename
                            (Some c))) by (rewrite Hrun; reflexivity).
  destruct (process_document_succeeds_again E t1 t2 t3 t4 init s1 _ _ _ _ _ Hrun)
    as [s2' Hrun2].
  assert (Hs2 : s2 = s2') by (unfold s2; rewrite Hrun2; reflexivity).
  destruct (process_document_ingested E _ _ _ _ _ _ _ _ Htruthy Hrun)
    as [r1 [e1 [_ [_ [Hc1 [Hid1 Hst1]]]]]].
  destruct (process_document_ingested E _ _ _ _ _ _ _ _ Htruthy Hrun2)
    as [r2 [e2 [_ [_ [Hc2 [Hid2 Hst2]]]]]].
  assert (Hreg : registry_ids s2 c = [file_id; file_id]).
  { rewrite Hs2, Hst2, Hst1. unfold registry_ids. simpl.
    rewrite Hc1, Hc2. simpl. rewrite String.eqb_refl. simpl.
    rewrite Hid1, Hid2. reflexivity. }
  assert (Hsto : store_ids s2 c = [file_id]).
  { rewrite Hs2, Hst2, Hst1. unfold store_ids, docs_of. simpl.
    rewrite !lookup_insert_eq. simpl. rewrite lookup_empty. simpl.
    rewrite String.eqb_refl. reflexivity. }
  split; [|split; [exact Hreg|split; [exact Hsto|]]].
  - unfold s2. rewrite Hs1. apply reach_ingest. apply reach_ingest.
    apply reach_init.
  - unfold mirrored. rewrite Hreg, Hsto. intros Hperm.
    apply Permutation_length in Hperm. discriminate.
Qed.

Lemma reingest_breaks_registry_mirror_witness :
  let s2 :=
    snd (process_document Sample.env "t3" "t4"
           (snd (process_document Sample.env "t1" "t2" init Sample.hello
                   "a.txt" (Some "c")))
           Sample.hello "a.txt" (Some "c")) in
  reachable Sample.env s2 /\
  registry_ids s2 "c" = ["5d41402abc"; "5d41402abc"] /\
  store_ids s2 "c" = ["5d41402abc"] /\
  ~ mirrored s2 "c".
Proof.
  exact (reingest_breaks_registry_mirror Sample.env "t1" "t2" "t3" "t4"
           Sample.hello "a.txt" "c" _ _ eq_refl eq_refl).
Defined.

(** A second way out of step: two documents of one name and different
    content in one chat. With a storage that does not raise,
    [delete_document] removes the first matching record from the store and
    every matching summary from the registry, so a record stays behind
    that no summary accounts for. *)
Lemma delete_by_name_breaks_registry_mirror (E : collaborators)
    (w : storage_reply)
    (t1 t2 t3 t4 : string) (content1 content2 : list Byte.byte)
    (filename c : string) (info1 info2 : ingest_info) (s1 s2 : rag) :
  storage_quiet w ->
  PyStr.truthy c = true ->
  md5_hexdigest10 E content1 <> md5_hexdigest10 E content2 ->
  process_document E t1 t2 init content1 filename (Some c)
  = (Ingested info1, s1) ->
  process_document E t3 t4 s1 content2 filename (Some c)
  = (Ingested info2, s2) ->
  let s3 := snd (delete_document E w s2 filename (Some c)) in
  reachable E s3 /\
  registry_ids s3 c = [] /\
  store_ids s3 c = [md5_hexdigest10 E content2] /\
  ~ mirrored s3 c.
Proof.
  intros Hw Htruthy Hdiff Hrun1 Hrun2 s3.
  assert (Hs1 : s1 = snd (process_document E t1 t2 init content1 filename
                            (Some c))) by (rewrite Hrun1; reflexivity).
  assert (Hs2 : s2 = snd (process_document E t3 t4 s1 content2 filename
                            (Some c))) by (rewrite Hrun2; reflexivity).
  destruct (process_document_ingested E _ _ _ _ _ _ _ _ Htruthy Hrun1)
    as [r1 [e1 [Hr1 [Hf1 [Hc1 [Hid1 Hst1]]]]]].
  destruct (process_document_ingested E _ _ _ _ _ _ _ _ Htruthy Hrun2)
    as [r2 [e2 [Hr2 [Hf2 [Hc2 [Hid2 Hst2]]]]]].
  assert (Hm1 : summary_matches filename (Some c) e1 = true)
    by (apply summary_matches_iff; auto).
  assert (Hm2 : summary_matches filename (Some c) e2 = true)
    by (apply summary_matches_iff; auto).
  assert (Hne : String.eqb (md5_hexdigest10 E content1)
                  (md5_hexdigest10 E content2) = false)
    by (apply String.eqb_neq; exact Hdiff).
  assert (Hreach : reachable E s3).
  { unfold s3. rewrite Hs2, Hs1. apply reach_delete. apply reach_ingest.
    apply reach_ingest. apply reach_init. }
  clear Hrun1 Hrun2 Hs1 Hs2. subst s1. subst s2.
  assert (Hdel : s3 = {| documents_metadata := [];
                         chat_documents :=
                           <[ c := [(md5_hexdigest10 E content2, r2)] ]>
                             (<[ c := [(md5_hexdigest10 E content1, r1);
                                       (md5_hexdigest10 E content2, r2)] ]>
                                (<[ c := [(md5_hexdigest10 E content1, r1)] ]>
                                   ∅)) |}).
  { unfold s3.
    edestruct (delete_document_quiet E w) as [b Hb]; [exact Hw|].
    rewrite Hb. unfold remove_from_memory, docs_of.
    cbn [documents_metadata chat_documents init app List.find].
    rewrite Hm1. cbn [snd]. rewrite Htruthy.
    rewrite !lookup_insert_eq, lookup_empty.
    unfold default, id. cbn [from_option Dict.set]. rewrite Hne.
    cbn [Dict.set Dict.del_first List.filter]. rewrite Hr1, String.eqb_refl.
    rewrite Hm1, Hm2. reflexivity. }
  assert (Hreg : registry_ids s3 c = []) by (rewrite Hdel; reflexivity).
  assert (Hsto : store_ids s3 c = [md5_hexdigest10 E content2]).
  { rewrite Hdel. unfold store_ids, docs_of. cbn [chat_documents].
    rewrite lookup_insert_eq. reflexivity. }
  split; [exact Hreach|split; [exact Hreg|split; [exact Hsto|]]].
  unfold mirrored. rewrite Hreg, Hsto. intros Hperm.
  apply Permutation_length in Hperm. discriminate.
Qed.

Lemma delete_by_name_breaks_registry_mirror_sample :
  let s2 :=
    snd (process_document Sample.env "t3" "t4"
           (snd (process_document Sample.env "t1" "t2" init Sample.hello
                   "a.txt" (Some "c")))
           Sample.world "a.txt" (Some "c")) in
  let s3 := snd (delete_document Sample.env Sample.removed s2 "a.txt"
                   (Some "c")) in
  registry_ids s3 "c" = [] /\ store_ids s3 "c" = ["7d793037a0"] /\
  has_documents s3 (Some "c") = true.
Proof.
  pose proof (delete_by_name_breaks_registry_mirror Sample.env Sample.removed
                "t1" "t2" "t3" "t4" Sample.hello Sample.world "a.txt" "c"
                _ _ _ _
                (conj (ex_intro _ true eq_refl) (ex_intro _ tt eq_refl))
                eq_refl ltac:(vm_compute; discriminate) eq_refl eq_refl)
    as [_ [Hreg [Hsto _]]].
  cbv zeta. split; [exact Hreg|]. split; [exact Hsto|]. reflexivity.
Defined.

(** * Further properties *)

(** ** Strings *)

Section StringFacts.

Lemma append_cons (c : ascii) (a b : string) :
  String c a ++ b = String c (a ++ b).
Proof. reflexivity. Qed.

Lemma append_empty_l (s : string) : "" ++ s = s.
Proof. reflexivity. Qed.

Lemma append_empty_r (s : string) : s ++ "" = s.
Proof.
  induction s as [|c s IH]; [reflexivity|]. rewrite append_cons, IH.
  reflexivity.
Qed.

Lemma append_assoc (a b c : string) : (a ++ b) ++ c = a ++ (b ++ c).
Proof.
  induction a as [|x a IH]; [reflexivity|]. rewrite !append_cons, IH.
  reflexivity.
Qed.

Lemma length_append (a b : string) :
  String.length (a ++ b) = (String.length a + String.length b)%nat.
Proof.
  induction a as [|x a IH]; [reflexivity|]. rewrite append_cons. simpl.
  rewrite IH. reflexivity.
Qed.

Lemma lower_append (a b : string) :
  PyStr.lower (a ++ b) = PyStr.lower a ++ PyStr.lower b.
Proof.
  induction a as [|x a IH]; [reflexivity|]. rewrite append_cons. simpl.
  rewrite IH. reflexivity.
Qed.

Lemma prefix_split (n h : string) :
  String.prefix n h = true -> exists post, h = n ++ post.
Proof.
  revert h. induction n as [|x n IH]; intros h Hp.
  - exists h. reflexivity.
  - destruct h as [|y h]; simpl in Hp; [discriminate|].
    destruct (ascii_dec x y) as [->|]; [|discriminate].
    destruct (IH h Hp) as [post ->]. exists post. reflexivity.
Qed.

Lemma prefix_append (n post : string) : String.prefix n (n ++ post) = true.
Proof.
  induction n as [|x n IH].
  - destruct post; reflexivity.
  - rewrite append_cons. simpl.
    destruct (ascii_dec x x); [exact IH|congruence].
Qed.

Lemma contains_unfold (n h : string) :
  PyStr.contains n h
  = String.prefix n h
    || match h with
       | EmptyString => false
       | String _ r => PyStr.contains n r
       end.
Proof. destruct h; reflexivity. Qed.

Lemma contains_prefix (n h : string) :
  String.prefix n h = true -> PyStr.contains n h = true.
Proof. intros H. rewrite contains_unfold, H. reflexivity. Qed.

Lemma contains_tail (n : string) (c : ascii) (h : string) :
  PyStr.contains n h = true -> PyStr.contains n (String c h) = true.
Proof. intros H. rewrite contains_unfold, H. apply orb_true_r. Qed.

Lemma contains_append_l (n pre h : string) :
  PyStr.contains n h = true -> PyStr.contains n (pre ++ h) = true.
Proof.
  intros H. induction pre as [|c pre IH]; [exact H|].
  rewrite append_cons. apply contains_tail. exact IH.
Qed.

(** [needle in hay] holds exactly when [hay] is the needle between two
    strings. *)
Lemma contains_split (n h : string) :
  PyStr.contains n h = true <-> exists pre post, h = pre ++ n ++ post.
Proof.
  split.
  - induction h as [|c h IH]; intros H; rewrite contains_unfold in H.
    + rewrite orb_false_r in H.
      destruct (prefix_split _ _ H) as [post Hpost]. exists "", post.
      exact Hpost.
    + apply orb_true_iff in H as [H|H].
      * destruct (prefix_split n (String c h) H) as [post Hpost].
        exists "", post. exact Hpost.
      * destruct (IH H) as [pre [post ->]]. exists (String c pre), post.
        reflexivity.
  - intros [pre [post ->]]. apply contains_append_l, contains_prefix,
      prefix_append.
Qed.

Lemma contains_append_r (n h post : string) :
  PyStr.contains n h = true -> PyStr.contains n (h ++ post) = true.
Proof.
  intros H. apply contains_split in H as [pre [post' ->]].
  apply contains_split. exists pre, (post' ++ post).
  rewrite !append_assoc. reflexivity.
Qed.

Lemma contains_trans (a b c : string) :
  PyStr.contains a b = true -> PyStr.contains b c = true ->
  PyStr.contains a c = true.
Proof.
  intros Hab Hbc. apply contains_split in Hab as [p1 [q1 ->]].
  apply contains_split in Hbc as [p2 [q2 ->]].
  apply contains_split. exists (p2 ++ p1), (q1 ++ q2).
  rewrite !append_assoc. reflexivity.
Qed.

Lemma contains_length (n h : string) :
  PyStr.contains n h = true -> (String.length n <= String.length h)%nat.
Proof.
  intros H. apply contains_split in H as [pre [post ->]].
  rewrite !length_append. lia.
Qed.

Lemma substring_all (s : string) :
  String.substring 0 (String.length s) s = s.
Proof. induction s as [|c s IH]; simpl; congruence. Qed.

Lemma substring_after_prefix (l post : string) :
  String.substring (String.length l)
    (String.length (l ++ post) - String.length l) (l ++ post) = post.
Proof.
  rewrite length_append.
  replace (String.length l + String.length post - String.length l)%nat
    with (String.length post) by lia.
  induction l as [|c l IH]; [apply substring_all|].
  rewrite append_cons. simpl. exact IH.
Qed.

End StringFacts.

(** ** Classifier: which checks can decide *)

Section ClassifierFacts.

Lemma match_here_lit (l : string) (rest : list piece) (s : string) :
  Re.match_here (Lit l :: rest) s
  = String.prefix l s
    && Re.match_here rest
         (String.substring (String.length l)
            (String.length s - String.length l) s).
Proof. reflexivity. Qed.

Lemma match_here_star (rest : list piece) (s : string) :
  Re.match_here (DotStar :: rest) s
  = Re.match_here rest s
    || match s with
       | EmptyString => false
       | String c r =>
           negb (Re.is_newline c) && Re.match_here (DotStar :: rest) r
       end.
Proof. destruct s; reflexivity. Qed.

Lemma search_unfold (p : list piece) (s : string) :
  Re.search p s
  = Re.match_here p s
    || match s with
       | EmptyString => false
       | String _ r => Re.search p r
       end.
Proof. destruct s; reflexivity. Qed.

(** A match of a pattern holds each of its literals. *)
Lemma match_here_literal (l : string) (p : list piece) : forall s,
  In (Lit l) p -> Re.match_here p s = true -> PyStr.contains l s = true.
Proof.
  induction p as [|[l0|] rest IH]; intros s Hin Hm.
  - destruct Hin.
  - rewrite match_here_lit in Hm. apply andb_true_iff in Hm as [Hp Hrest].
    destruct (prefix_split _ _ Hp) as [post ->].
    rewrite substring_after_prefix in Hrest.
    destruct Hin as [Heq|Hin].
    + inversion Heq; subst. apply contains_prefix, prefix_append.
    + apply contains_append_l. apply IH; assumption.
  - destruct Hin as [Heq|Hin]; [discriminate|].
    induction s as [|c r IHs]; rewrite match_here_star in Hm.
    + rewrite orb_false_r in Hm. apply IH; assumption.
    + apply orb_true_iff in Hm as [Hm|Hm]; [apply IH; assumption|].
      apply andb_true_iff in Hm as [_ Hm]. apply contains_tail, IHs, Hm.
Qed.

Lemma search_literal (l : string) (p : list piece) (s : string) :
  In (Lit l) p -> Re.search p s = true -> PyStr.contains l s = true.
Proof.
  intros Hin. induction s as [|c r IHs]; intros Hs; rewrite search_unfold in Hs.
  - rewrite orb_false_r in Hs. eapply match_here_literal; eassumption.
  - apply orb_true_iff in Hs as [Hs|Hs].
    + eapply match_here_literal; eassumption.
    + apply contains_tail, IHs, Hs.
Qed.

Lemma no_trigger_no_literal (q l t : string) (p : list piece) :
  existsb (fun trigger => PyStr.contains trigger q) search_triggers = false ->
  In t search_triggers -> PyStr.contains t l = true -> In (Lit l) p ->
  Re.search p q = false.
Proof.
  intros Hnone Ht Htl Hin. apply not_true_is_false. intros Hs.
  pose proof (search_literal l p q Hin Hs) as Hl.
  pose proof (contains_trans _ _ _ Htl Hl) as Htq.
  assert (existsb (fun trigger => PyStr.contains trigger q) search_triggers
          = true) as Hex by (apply existsb_exists; eauto).
  congruence.
Qed.

End ClassifierFacts.

Lemma subsumed_pattern_silent (q : string) (p : list piece) :
  existsb (fun trigger => PyStr.contains trigger q) search_triggers = false ->
  subsumed_by_trigger p = true -> Re.search p q = false.
Proof.
  intros Hnone Hsub. unfold subsumed_by_trigger in Hsub.
  apply existsb_exists in Hsub as [[l|] [Hin Hl]]; [|discriminate].
  apply existsb_exists in Hl as [t [Ht Htl]].
  exact (no_trigger_no_literal q l t p Hnone Ht Htl Hin).
Qed.

Lemma existsb_skip_silent (q : string) (l : list (list piece)) :
  existsb (fun trigger => PyStr.contains trigger q) search_triggers = false ->
  existsb (fun p => Re.search p q) l
  = existsb (fun p => Re.search p q)
      (List.filter (fun p => negb (subsumed_by_trigger p)) l).
Proof.
  intros Hnone. induction l as [|p l IH]; [reflexivity|]. simpl.
  destruct (subsumed_by_trigger p) eqn:Hsub; simpl.
  - rewrite (subsumed_pattern_silent q p Hnone Hsub). exact IH.
  - rewrite IH. reflexivity.
Qed.

(** X1. The classifier is decided by the exclusion phrases, the trigger
    keywords and the single pattern [when.*did.*happen]: every other
    pattern, and the final weather-word check, asks for a word that is
    itself a trigger keyword, so they never change the answer. *)
Theorem classifier_decided_by_keywords_and_one_pattern (query : string) :
  should_trigger_web_search query
  = (let q := PyStr.lower query in
     if existsb (fun keyword => PyStr.contains keyword q) no_search_keywords
     then false
     else if existsb (fun trigger => PyStr.contains trigger q) search_triggers
     then true
     else Re.search when_did_happen q).
Proof.
  unfold should_trigger_web_search, classify_lower. cbv zeta.
  set (q := PyStr.lower query).
  destruct (existsb _ no_search_keywords); [reflexivity|].
  destruct (existsb (fun trigger => PyStr.contains trigger q) search_triggers)
    eqn:Hnone; [reflexivity|].
  rewrite (existsb_skip_silent q weather_patterns Hnone).
  rewrite (existsb_skip_silent q question_patterns Hnone).
  change (List.filter (fun p => negb (subsumed_by_trigger p)) weather_patterns)
    with (@nil (list piece)).
  change (List.filter (fun p => negb (subsumed_by_trigger p)) question_patterns)
    with [when_did_happen].
  cbn [existsb]. rewrite orb_false_r.
  destruct (Re.search when_did_happen q); [reflexivity|].
  assert (Hweather : existsb (fun word => PyStr.contains word q)
                       direct_weather_words = false).
  { apply not_true_is_false. intros Hw.
    apply existsb_exists in Hw as [w [Hin Hw]].
    assert (existsb (fun trigger => PyStr.contains trigger q) search_triggers
            = true); [|congruence].
    apply existsb_exists. exists w. split; [|exact Hw].
    unfold direct_weather_words in Hin. simpl in Hin.
    destruct Hin as [<-|[<-|[<-|[<-|[]]]]]; simpl; tauto. }
  rewrite Hweather. reflexivity.
Qed.

(** ** URL-analysis requests *)

(** X2. A message that holds an indicator phrase stays a URL-analysis request
    whatever text is put around it, and whatever the case of its letters;
    the empty message is not one. *)
Theorem is_url_analysis_request_embedded :
  (forall pre message post,
     is_url_analysis_request message = true ->
     is_url_analysis_request (pre ++ message ++ post) = true) /\
  (forall m1 m2,
     PyStr.lower m1 = PyStr.lower m2 ->
     is_url_analysis_request m1 = is_url_analysis_request m2) /\
  is_url_analysis_request "" = false.
Proof.
  split; [|split].
  - intros pre message post H. unfold is_url_analysis_request in *.
    apply existsb_exists in H as [indicator [Hin Hsub]].
    apply existsb_exists. exists indicator. split; [exact Hin|].
    rewrite !lower_append.
    apply contains_append_l, contains_append_r, Hsub.
  - intros m1 m2 Heq. unfold is_url_analysis_request. rewrite Heq.
    reflexivity.
  - reflexivity.
Qed.

Lemma is_url_analysis_request_embedded_witness :
  is_url_analysis_request ("see " ++ "URL: example.org" ++ " thanks") = true /\
  is_url_analysis_request "TITLE: x" = is_url_analysis_request "title: X".
Proof.
  destruct is_url_analysis_request_embedded as [Hemb [Hcase _]].
  split.
  - apply (Hemb "see " "URL: example.org" " thanks"). reflexivity.
  - apply (Hcase "TITLE: x" "title: X"). reflexivity.
Defined.

(** ** Prompt composer *)

Lemma length_nl : String.length nl = 1%nat.
Proof. reflexivity. Qed.

(** Finds a part among the parts of a concatenation. *)
Ltac find_part :=
  first [ apply contains_prefix, prefix_append
        | apply contains_append_l; find_part ].

(** X3. Without web results the query is returned as it is; with web results
    the prompt holds both the results and the query and is never the bare
    query. *)
Theorem enhance_with_web_search_embeds (query web_search_results : string) :
  enhance_with_web_search query "" = query /\
  (web_search_results <> "" ->
   let prompt := enhance_with_web_search query web_search_results in
   PyStr.contains web_search_results prompt = true /\
   PyStr.contains query prompt = true /\
   prompt <> query).
Proof.
  split; [reflexivity|]. intros Hne. cbv zeta.
  unfold enhance_with_web_search.
  destruct web_search_results as [|c w]; [congruence|].
  cbn [PyStr.truthy negb]. split; [|split].
  - find_part.
  - find_part.
  - intros Heq. apply (f_equal String.length) in Heq.
    rewrite !length_append, !length_nl in Heq. lia.
Qed.

Lemma enhance_with_web_search_embeds_witness :
  PyStr.contains "rain at noon"
    (enhance_with_web_search "weather today" "rain at noon") = true /\
  enhance_with_web_search "weather today" "rain at noon" <> "weather today".
Proof.
  destruct (enhance_with_web_search_embeds "weather today" "rain at noon")
    as [_ H].
  destruct H as [Hw [_ Hne]]; [discriminate|]. split; [exact Hw|exact Hne].
Defined.

(** X4. [combine_sources] returns the bare query, whatever document context
    the caller passes, when there are no web results and the chat has no
    documents or the retriever found nothing; with web results it always
    builds the combined prompt, which holds the results and the query. *)
Theorem combine_sources_needs_a_source (s : rag)
    (query document_context web_search_results : string)
    (chat_id : option string) :
  (web_search_results = "" ->
   chat_truthy chat_id = false \/ has_documents s chat_id = false \/
   simple_search s query chat_id default_top_k = query ->
   combine_sources s query document_context web_search_results chat_id
   = query) /\
  (web_search_results <> "" ->
   let prompt :=
     combine_sources s query document_context web_search_results chat_id in
   prompt = combined_prompt query document_context web_search_results /\
   PyStr.contains web_search_results prompt = true /\
   PyStr.contains query prompt = true /\
   prompt <> query).
Proof.
  split.
  - intros -> Hnone. unfold combine_sources, combine_sources_list.
    destruct (chat_truthy chat_id) eqn:Ht; simpl; [|reflexivity].
    destruct (has_documents s chat_id) eqn:Hd; simpl; [|reflexivity].
    destruct Hnone as [Hn|[Hn|Hn]]; try discriminate.
    rewrite Hn, String.eqb_refl. reflexivity.
  - intros Hne. cbv zeta.
    assert (Hprompt :
      combine_sources s query document_context web_search_results chat_id
      = combined_prompt query document_context web_search_results).
    { unfold combine_sources, combine_sources_list.
      destruct web_search_results as [|c w]; [congruence|].
      cbn [PyStr.truthy].
      destruct (chat_truthy chat_id && has_documents s chat_id);
        [destruct (negb _)|]; reflexivity. }
    rewrite Hprompt. unfold combined_prompt.
    destruct web_search_results as [|c w]; [congruence|].
    cbn [PyStr.truthy]. split; [reflexivity|]. split; [|split].
    + rewrite !append_assoc. find_part.
    + rewrite !append_assoc. find_part.
    + intros Heq. apply (f_equal String.length) in Heq.
      rewrite !length_append, !length_nl in Heq. lia.
Qed.

Lemma combine_sources_needs_a_source_witness :
  combine_sources init "what is new" "some context" "" (Some "c")
  = "what is new" /\
  combine_sources init "what is new" "" "headline" None <> "what is new".
Proof.
  split.
  - apply (proj1 (combine_sources_needs_a_source init "what is new"
                    "some context" "" (Some "c"))); [reflexivity|].
    right. left. reflexivity.
  - apply (proj2 (combine_sources_needs_a_source init "what is new" ""
                    "headline" None)). discriminate.
Defined.

(** ** Retriever: ranking *)

Section RankingFacts.

Lemma insert_desc_perm (x : scored_chunk) (l : list scored_chunk) :
  Permutation (insert_desc x l) (x :: l).
Proof.
  induction l as [|y l IH]; simpl; [reflexivity|].
  destruct (sc_score x <? sc_score y)%nat; [|reflexivity].
  rewrite IH. apply perm_swap.
Qed.

Lemma sort_desc_perm (l : list scored_chunk) : Permutation (sort_desc l) l.
Proof.
  induction l as [|x l IH]; simpl; [reflexivity|].
  rewrite insert_desc_perm, IH. reflexivity.
Qed.

Lemma insert_desc_sorted (x : scored_chunk) (l : list scored_chunk) :
  StronglySorted (fun a b => (sc_score b <= sc_score a)%nat) l ->
  StronglySorted (fun a b => (sc_score b <= sc_score a)%nat) (insert_desc x l).
Proof.
  induction l as [|y l IH]; intros Hs; simpl.
  - constructor; constructor.
  - apply StronglySorted_inv in Hs as [Hl Hy].
    destruct (sc_score x <? sc_score y)%nat eqn:Hlt.
    + apply Nat.ltb_lt in Hlt. constructor; [apply IH; exact Hl|].
      rewrite List.Forall_forall in *. intros z Hz.
      apply (Permutation_in _ (insert_desc_perm x l)) in Hz.
      destruct Hz as [<-|Hz]; [lia|apply Hy; exact Hz].
    + apply Nat.ltb_ge in Hlt. constructor.
      * constructor; assumption.
      * constructor; [exact Hlt|].
        rewrite List.Forall_forall in *. intros z Hz.
        specialize (Hy z Hz). lia.
Qed.

Lemma insert_desc_same_score (k : nat) (x : scored_chunk)
    (l : list scored_chunk) :
  List.filter (fun y => (sc_score y =? k)%nat) (insert_desc x l)
  = List.filter (fun y => (sc_score y =? k)%nat) (x :: l).
Proof.
  induction l as [|y l IH]; [reflexivity|]. simpl in *.
  destruct (sc_score x <? sc_score y)%nat eqn:Hlt; [|reflexivity].
  apply Nat.ltb_lt in Hlt. simpl. rewrite IH.
  destruct (sc_score x =? k)%nat eqn:Hx; [|reflexivity].
  apply Nat.eqb_eq in Hx.
  destruct (sc_score y =? k)%nat eqn:Hy; [|reflexivity].
  apply Nat.eqb_eq in Hy. lia.
Qed.

End RankingFacts.

(** X5. The ranking of [simple_search] is a stable sort by decreasing score:
    the same chunks, no chunk before one of higher score, and chunks of
    equal score in the order of discovery. *)
Theorem sort_desc_stable_ranking (l : list scored_chunk) :
  Permutation (sort_desc l) l /\
  StronglySorted (fun a b => (sc_score b <= sc_score a)%nat) (sort_desc l) /\
  (forall k,
     List.filter (fun y => (sc_score y =? k)%nat) (sort_desc l)
     = List.filter (fun y => (sc_score y =? k)%nat) l).
Proof.
  split; [apply sort_desc_perm|]. split.
  - induction l as [|x l IH]; simpl; [constructor|].
    apply insert_desc_sorted, IH.
  - intros k. induction l as [|x l IH]; [reflexivity|].
    simpl sort_desc. rewrite insert_desc_same_score. simpl. rewrite IH.
    reflexivity.
Qed.

(** ** Retriever: when context is added *)

Section SearchFacts.

Lemma simple_search_truthy (s : rag) (query c : string) (top_k : Z) :
  PyStr.truthy c = true ->
  simple_search s query (Some c) top_k
  = let docs := docs_of s c in
    let top_chunks :=
      take_py top_k
        (sort_desc (relevant_chunks (PyStr.split (PyStr.lower query)) docs)) in
    match docs with
    | [] => query
    | _ =>
        match top_chunks with
        | [] => query
        | _ =>
            enhanced_prompt
              (PyStr.join (nl ++ nl) (context_parts 1 top_chunks)) query
        end
    end.
Proof.
  intros Ht. unfold simple_search, docs_of. rewrite Ht. cbn [negb].
  destruct (chat_documents s !! c) as [[|d docs]|]; reflexivity.
Qed.

Lemma enhanced_prompt_longer (context query : string) :
  enhanced_prompt context query <> query.
Proof.
  intros Heq. apply (f_equal String.length) in Heq.
  unfold enhanced_prompt in Heq.
  rewrite !length_append, !length_nl in Heq. lia.
Qed.

Lemma take_py_nonempty {A : Type} (k : Z) (l : list A) :
  1 <= k -> l <> [] -> take_py k l <> [].
Proof.
  intros Hk Hl. unfold take_py. destruct (0 <=? k) eqn:H0; [|lia].
  destruct (Z.to_nat k) as [|n] eqn:Hn; [lia|].
  destruct l as [|a l]; [congruence|]. discriminate.
Qed.

Lemma relevance_score_pos (query_words : list string) (chunk : string) :
  (0 < relevance_score query_words chunk)%nat <->
  exists word, In word query_words /\
               PyStr.contains word (PyStr.lower chunk) = true.
Proof.
  unfold relevance_score. split.
  - intros Hpos.
    destruct (List.filter _ query_words) as [|w ws] eqn:Hf; [simpl in Hpos; lia|].
    assert (Hin : In w (List.filter
                          (fun word => PyStr.contains word (PyStr.lower chunk))
                          query_words)) by (rewrite Hf; left; reflexivity).
    apply filter_In in Hin. exists w. exact Hin.
  - intros [w Hw].
    apply (proj2 (filter_In
                    (fun word => PyStr.contains word (PyStr.lower chunk))
                    w query_words)) in Hw.
    destruct (List.filter _ query_words); [destruct Hw|simpl; lia].
Qed.

Lemma relevant_chunks_found (query_words : list string)
    (docs : list (string * doc_data)) :
  relevant_chunks query_words docs <> [] <->
  exists item chunk word,
    In item docs /\ In chunk (doc_chunks (snd item)) /\
    In word query_words /\ PyStr.contains word (PyStr.lower chunk) = true.
Proof.
  split.
  - intros Hne.
    destruct (relevant_chunks query_words docs) as [|x r] eqn:Hr;
      [congruence|].
    assert (Hx : In x (relevant_chunks query_words docs))
      by (rewrite Hr; left; reflexivity).
    unfold relevant_chunks in Hx.
    apply in_flat_map in Hx as [item [Hitem Hx]].
    apply in_flat_map in Hx as [chunk [Hchunk Hx]].
    destruct (0 <? relevance_score query_words chunk)%nat eqn:Hpos;
      [|destruct Hx].
    apply Nat.ltb_lt, relevance_score_pos in Hpos as [word [Hw Hc]].
    exists item, chunk, word. auto.
  - intros [item [chunk [word [Hitem [Hchunk [Hw Hc]]]]]] Hnil.
    assert (Hpos : (0 < relevance_score query_words chunk)%nat)
      by (apply relevance_score_pos; eauto).
    assert (Hin : In {| sc_chunk := chunk;
                        sc_score := relevance_score query_words chunk;
                        sc_filename := doc_filename (snd item) |}
                    (relevant_chunks query_words docs)).
    { unfold relevant_chunks. apply in_flat_map. exists item.
      split; [exact Hitem|]. apply in_flat_map. exists chunk.
      split; [exact Hchunk|]. apply Nat.ltb_lt in Hpos. rewrite Hpos.
      left. reflexivity. }
    rewrite Hnil in Hin. destruct Hin.
Qed.

End SearchFacts.

(** X6. For a chat identifier that is not empty and a [top_k] of at least 1,
    [simple_search] returns something other than the query exactly when
    some query token occurs in some lower-cased chunk of some document of
    that chat. *)
Theorem simple_search_adds_context_iff (s : rag) (query c : string)
    (top_k : Z) :
  PyStr.truthy c = true -> 1 <= top_k ->
  (simple_search s query (Some c) top_k <> query <->
   exists item chunk word,
     In item (docs_of s c) /\ In chunk (doc_chunks (snd item)) /\
     In word (PyStr.split (PyStr.lower query)) /\
     PyStr.contains word (PyStr.lower chunk) = true).
Proof.
  intros Ht Hk. rewrite simple_search_truthy by exact Ht. cbv zeta.
  rewrite <- relevant_chunks_found.
  set (rel := relevant_chunks (PyStr.split (PyStr.lower query)) (docs_of s c)).
  assert (Hempty : docs_of s c = [] -> rel = []).
  { intros Hd. unfold rel. rewrite Hd. reflexivity. }
  destruct (docs_of s c) as [|d docs] eqn:Hdocs.
  - rewrite Hempty by reflexivity. split; intros H; congruence.
  - fold rel. split.
    + intros Hne Hrel. rewrite Hrel in Hne. simpl in Hne.
      rewrite take_py_nil in Hne. congruence.
    + intros Hrel.
      assert (Hsort : sort_desc rel <> []).
      { intros Hs. pose proof (sort_desc_perm rel) as Hp. rewrite Hs in Hp.
        apply Permutation_nil in Hp. congruence. }
      pose proof (take_py_nonempty top_k _ Hk Hsort) as Htop.
      destruct (take_py top_k (sort_desc rel)); [congruence|].
      apply enhanced_prompt_longer.
Qed.

Lemma simple_search_adds_context_iff_witness :
  let s1 := snd (process_document Sample.env "t1" "t2" init Sample.hello
                   "a.txt" (Some "c")) in
  simple_search s1 "Hello there" (Some "c") default_top_k <> "Hello there".
Proof.
  cbv zeta.
  apply (proj2 (simple_search_adds_context_iff _ "Hello there" "c"
                  default_top_k eq_refl ltac:(vm_compute; discriminate))).
  eexists. exists "hello", "hello".
  split; [left; reflexivity|]. split; [left; reflexivity|].
  split; [left; reflexivity|reflexivity].
Defined.

(** ** Chunker: the boundary that is chosen *)

Section BoundaryFacts.

(** The backward scan stops at the first sentence end it meets: when it
    moves the end, no character between the new end and the start of the
    scan ends a sentence; when it runs out, none of the inspected
    characters does. *)
Lemma scan_back_nearest (text : string) (n : nat) : forall (i dflt : Z),
  0 <= i - Z.of_nat n + 1 -> i < PyStr.len text ->
  exists e, scan_back text i n dflt = Some e /\
    ((e = dflt /\
      forall j c, i - Z.of_nat n < j <= i -> PyStr.index text j = Some c ->
                  is_sentence_end c = false) \/
     (i - Z.of_nat n + 2 <= e <= i + 1 /\
      (exists c, PyStr.index text (e - 1) = Some c /\
                 is_sentence_end c = true) /\
      forall j c, e <= j <= i -> PyStr.index text j = Some c ->
                  is_sentence_end c = false)).
Proof.
  induction n as [|n IH]; intros i dflt Hlo Hhi; simpl scan_back.
  - exists dflt. split; [reflexivity|]. left. split; [reflexivity|].
    intros j c Hj. lia.
  - destruct (index_in_range text i) as [c Hc]; [lia|].
    rewrite Hc. destruct (is_sentence_end c) eqn:Hs.
    + exists (i + 1). split; [reflexivity|]. right. split; [lia|]. split.
      * exists c. replace (i + 1 - 1) with i by lia. auto.
      * intros j c' Hj. lia.
    + destruct (IH (i - 1) dflt) as [e [He Hcase]]; [lia|lia|].
      exists e. split; [exact He|].
      destruct Hcase as [[-> Hnone]|[Hb [Hc' Hnone]]].
      * left. split; [reflexivity|]. intros j c' Hj Hjc.
        destruct (Z.eq_dec j i) as [->|Hne]; [congruence|].
        apply (Hnone j c'); [lia|exact Hjc].
      * right. split; [lia|]. split; [exact Hc'|]. intros j c' Hj Hjc.
        destruct (Z.eq_dec j i) as [->|Hne]; [congruence|].
        apply (Hnone j c'); [lia|exact Hjc].
Qed.

End BoundaryFacts.

(** X7. For a window that starts at a valid position and whose naive end lies
    inside the text, the chosen end is the nearest sentence end met when
    scanning backward from the naive end: either no inspected character
    ends a sentence and the naive end is kept, or the end is put just after
    a sentence end, at least two past the lower limit of the scan and at
    most one past the naive end, with no sentence end from there up to the
    naive end. A window whose naive end is at or past the end of the text
    keeps it. *)
Theorem window_end_nearest_boundary (text : string) (chunk_size start : Z) :
  1 <= chunk_size -> 0 <= start ->
  let naive := start + chunk_size in
  let lo := Z.max (start + chunk_size / 2) (naive - 100) in
  (PyStr.len text <= naive -> window_end text chunk_size start = Some naive) /\
  (naive < PyStr.len text ->
   exists e, window_end text chunk_size start = Some e /\
     ((e = naive /\
       forall j c, lo < j <= naive -> PyStr.index text j = Some c ->
                   is_sentence_end c = false) \/
      (lo + 2 <= e <= naive + 1 /\
       (exists c, PyStr.index text (e - 1) = Some c /\
                  is_sentence_end c = true) /\
       forall j c, e <= j <= naive -> PyStr.index text j = Some c ->
                   is_sentence_end c = false))).
Proof.
  intros Hcs Hstart naive lo. unfold window_end. fold naive. fold lo. split.
  - intros Hge. apply Z.ltb_ge in Hge. rewrite Hge. reflexivity.
  - intros Hlt. pose proof Hlt as Hlt'. apply Z.ltb_lt in Hlt'. rewrite Hlt'.
    assert (Hhalf : 0 <= chunk_size / 2) by (apply Z.div_pos; lia).
    destruct (Z_le_gt_dec (naive - lo) 0) as [Hle|Hgt].
    + replace (Z.to_nat (naive - lo)) with O by lia. simpl.
      exists naive. split; [reflexivity|]. left. split; [reflexivity|].
      intros j c Hj. lia.
    + destruct (scan_back_nearest text (Z.to_nat (naive - lo)) naive naive)
        as [e [He Hcase]]; [subst lo; lia|lia|].
      exists e. split; [exact He|].
      replace (naive - Z.of_nat (Z.to_nat (naive - lo))) with lo in Hcase
        by lia.
      destruct Hcase as [[-> Hnone]|[Hb [Hc Hnone]]].
      * left. split; [reflexivity|exact Hnone].
      * right. split; [lia|]. split; [exact Hc|exact Hnone].
Qed.

Lemma window_end_nearest_boundary_witness :
  exists e, window_end "one. two three four" 10 0 = Some e /\
    ((e = 10 /\
      forall j c, 5 < j <= 10 ->
                  PyStr.index "one. two three four" j = Some c ->
                  is_sentence_end c = false) \/
     (5 + 2 <= e <= 10 + 1 /\
      (exists c, PyStr.index "one. two three four" (e - 1) = Some c /\
                 is_sentence_end c = true) /\
      forall j c, e <= j <= 10 ->
                  PyStr.index "one. two three four" j = Some c ->
                  is_sentence_end c = false)).
Proof.
  apply (proj2 (window_end_nearest_boundary "one. two three four" 10 0
                  ltac:(lia) ltac:(lia))).
  vm_compute. reflexivity.
Defined.

(** ** Chunker: what the chunks are *)

Section ChunkFacts.

Lemma lstrip_suffix (s : string) : exists pre, s = pre ++ PyStr.lstrip s.
Proof.
  induction s as [|c s [pre IH]]; [exists ""; reflexivity|]. simpl.
  destruct (PyStr.is_space c).
  - exists (String c pre). rewrite append_cons. congruence.
  - exists "". reflexivity.
Qed.

Lemma rstrip_prefix (s : string) : exists post, s = PyStr.rstrip s ++ post.
Proof.
  induction s as [|c s [post IH]]; [exists ""; reflexivity|]. simpl.
  destruct (PyStr.rstrip s) as [|d r] eqn:Hr.
  - destruct (PyStr.is_space c).
    + exists (String c s). reflexivity.
    + exists s. reflexivity.
  - exists post. rewrite append_cons. congruence.
Qed.

Lemma lstrip_head (s : string) :
  match PyStr.lstrip s with
  | EmptyString => True
  | String c _ => PyStr.is_space c = false
  end.
Proof.
  induction s as [|c s IH]; simpl; [exact I|].
  destruct (PyStr.is_space c) eqn:Hc; [exact IH|exact Hc].
Qed.

Lemma rstrip_idempotent (s : string) :
  PyStr.rstrip (PyStr.rstrip s) = PyStr.rstrip s.
Proof.
  induction s as [|c s IH]; simpl; [reflexivity|].
  destruct (PyStr.rstrip s) as [|d r] eqn:Hr.
  - destruct (PyStr.is_space c) eqn:Hc; simpl; [reflexivity|].
    rewrite Hc. reflexivity.
  - simpl in IH. simpl. destruct (PyStr.rstrip r) as [|d' r'] eqn:Hr'.
    + destruct (PyStr.is_space d) eqn:Hd; [discriminate|].
      inversion IH; subst. reflexivity.
    + rewrite IH. reflexivity.
Qed.

Lemma lstrip_rstrip_head (c : ascii) (r : string) :
  PyStr.is_space c = false ->
  PyStr.lstrip (PyStr.rstrip (String c r)) = PyStr.rstrip (String c r).
Proof.
  intros Hc. simpl PyStr.rstrip. destruct (PyStr.rstrip r) as [|d r'].
  - rewrite Hc. simpl. rewrite Hc. reflexivity.
  - simpl. rewrite Hc. reflexivity.
Qed.

Lemma strip_idempotent (s : string) :
  PyStr.strip (PyStr.strip s) = PyStr.strip s.
Proof.
  unfold PyStr.strip. pose proof (lstrip_head s) as Hh.
  destruct (PyStr.lstrip s) as [|c r]; [reflexivity|].
  rewrite lstrip_rstrip_head by exact Hh. apply rstrip_idempotent.
Qed.

Lemma strip_contained (s : string) : PyStr.contains (PyStr.strip s) s = true.
Proof.
  apply contains_split. unfold PyStr.strip.
  destruct (lstrip_suffix s) as [pre Hpre].
  destruct (rstrip_prefix (PyStr.lstrip s)) as [post Hpost].
  exists pre, post. rewrite <- Hpost. exact Hpre.
Qed.

Lemma strip_length (s : string) :
  (String.length (PyStr.strip s) <= String.length s)%nat.
Proof. apply contains_length, strip_contained. Qed.

Lemma substring_from_start (t : string) : forall k,
  exists post, t = String.substring 0 k t ++ post.
Proof.
  induction t as [|x t IH]; intros k.
  - destruct k; exists ""; reflexivity.
  - destruct k as [|k]; [exists (String x t); reflexivity|].
    destruct (IH k) as [post Hp]. exists post. simpl.
    rewrite append_cons. congruence.
Qed.

Lemma substring_split (s : string) : forall n m,
  exists pre post, s = pre ++ String.substring n m s ++ post.
Proof.
  induction s as [|c s IH]; intros n m.
  - exists "", "". destruct n, m; reflexivity.
  - destruct n as [|n].
    + destruct (substring_from_start (String c s) m) as [post Hp].
      exists "", post. exact Hp.
    + destruct (IH n m) as [pre [post Hs]]. exists (String c pre), post.
      simpl String.substring. rewrite append_cons. congruence.
Qed.

Lemma substring_contained (s : string) (n m : nat) :
  PyStr.contains (String.substring n m s) s = true.
Proof. apply contains_split, substring_split. Qed.

Lemma substring_length (s : string) : forall n m,
  (String.length (String.substring n m s) <= m)%nat.
Proof.
  induction s as [|c s IH]; intros n m.
  - destruct n, m; simpl; lia.
  - destruct n as [|n]; simpl.
    + destruct m as [|m]; simpl; [lia|]. specialize (IH O m). lia.
    + apply IH.
Qed.

Lemma slice_contained (text : string) (a b : Z) :
  PyStr.contains (PyStr.slice text a b) text = true.
Proof.
  unfold PyStr.slice. destruct (_ <? _).
  - apply substring_contained.
  - destruct text; reflexivity.
Qed.

Lemma slice_length (text : string) (a b : Z) :
  0 <= a -> 0 <= b ->
  Z.of_nat (String.length (PyStr.slice text a b)) <= Z.max 0 (b - a).
Proof.
  intros Ha Hb. unfold PyStr.slice, PyStr.clamp.
  destruct (Z.ltb_spec a 0) as [Ha0|_]; [lia|].
  destruct (Z.ltb_spec b 0) as [Hb0|_]; [lia|].
  set (n := PyStr.len text).
  assert (Hn : 0 <= n) by (unfold n, PyStr.len; lia).
  destruct (Z.ltb_spec (Z.min a n) (Z.min b n)) as [Hlt|_]; [|simpl; lia].
  pose proof (substring_length text (Z.to_nat (Z.min a n))
                (Z.to_nat (Z.min b n - Z.min a n))) as Hlen.
  lia.
Qed.

End ChunkFacts.

Section LoopFacts.
Variables (text : string) (chunk_size overlap : Z).

(** A property of every stripped window carries over to every chunk. *)
Lemma chunk_loop_all (P : string -> Prop) :
  (forall a b, P (PyStr.strip (PyStr.slice text a b))) ->
  forall (fuel : nat) (start : Z) (chunks chunks' : list string),
    Forall P chunks ->
    chunk_loop fuel text chunk_size overlap start chunks = Returned chunks' ->
    Forall P chunks'.
Proof.
  intros HP. induction fuel as [|fuel IH]; intros start chunks chunks' Hall Hrun;
    simpl in Hrun; [discriminate|].
  destruct (start <? PyStr.len text); [|congruence].
  destruct (window_end text chunk_size start) as [e|]; [|discriminate].
  assert (Hall' : Forall P
            (if PyStr.truthy (PyStr.strip (PyStr.slice text start e))
             then (chunks ++ [PyStr.strip (PyStr.slice text start e)])%list
             else chunks)).
  { destruct (PyStr.truthy _); [|exact Hall].
    apply Forall_app. split; [exact Hall|]. constructor; [apply HP|constructor]. }
  destruct (PyStr.len text <=? e - overlap).
  - inversion Hrun; subst. exact Hall'.
  - eapply IH; eauto.
Qed.

Hypothesis Hsize : 1 <= chunk_size.

(** With a step [d] that every iteration is sure to advance by, the
    chunks stay within [chunk_size + 1] characters and their number within
    the length of the text divided by the step. *)
Lemma chunk_loop_bounded (d : Z) :
  1 <= d -> d <= chunk_size - overlap ->
  d <= Z.max (chunk_size / 2) (chunk_size - 100) + 2 - overlap ->
  forall (fuel : nat) (start : Z) (chunks chunks' : list string),
    0 <= start < PyStr.len text ->
    Forall (fun c => Z.of_nat (String.length c) <= chunk_size + 1) chunks ->
    chunk_loop fuel text chunk_size overlap start chunks = Returned chunks' ->
    Forall (fun c => Z.of_nat (String.length c) <= chunk_size + 1) chunks' /\
    d * (Z.of_nat (List.length chunks') - Z.of_nat (List.length chunks))
    <= PyStr.len text - start + d - 1.
Proof.
  intros Hd Hd1 Hd2.
  induction fuel as [|fuel IH]; intros start chunks chunks' Hs Hall Hrun;
    simpl in Hrun; [discriminate|].
  destruct (Z.ltb_spec start (PyStr.len text)) as [_|Hge]; [|lia].
  destruct (window_end_bounds text chunk_size start) as [e [He Hcase]];
    [lia|lia|].
  rewrite He in Hrun.
  assert (He1 : start + d + overlap <= e <= start + chunk_size + 1).
  { destruct Hcase as [->|[_ [Hb _]]]; lia. }
  assert (He0 : 0 <= e).
  { assert (0 <= chunk_size / 2) by (apply Z.div_pos; lia).
    destruct Hcase as [->|[_ [Hb _]]]; lia. }
  set (chunk := PyStr.strip (PyStr.slice text start e)) in *.
  set (chunks1 := if PyStr.truthy chunk then (chunks ++ [chunk])%list
                  else chunks) in *.
  assert (Hchunk : Z.of_nat (String.length chunk) <= chunk_size + 1).
  { pose proof (strip_length (PyStr.slice text start e)) as H1.
    pose proof (slice_length text start e ltac:(lia) He0) as H2.
    fold chunk in H1. lia. }
  assert (Hall1 : Forall (fun c => Z.of_nat (String.length c) <= chunk_size + 1)
                    chunks1).
  { unfold chunks1. destruct (PyStr.truthy chunk); [|exact Hall].
    apply Forall_app. split; [exact Hall|]. constructor; [exact Hchunk|constructor]. }
  assert (Hlen1 : Z.of_nat (List.length chunks1)
                  <= Z.of_nat (List.length chunks) + 1).
  { unfold chunks1. destruct (PyStr.truthy chunk); [|lia].
    rewrite length_app. simpl. lia. }
  assert (Hlen0 : Z.of_nat (List.length chunks)
                  <= Z.of_nat (List.length chunks1)).
  { unfold chunks1. destruct (PyStr.truthy chunk); [|lia].
    rewrite length_app. simpl. lia. }
  destruct (Z.leb_spec (PyStr.len text) (e - overlap)) as [Hend|Hmore].
  - inversion Hrun; subst chunks'. split; [exact Hall1|]. nia.
  - destruct (IH (e - overlap) chunks1 chunks') as [Hall' Hcount];
      [lia|exact Hall1|exact Hrun|].
    split; [exact Hall'|]. nia.
Qed.

End LoopFacts.

(** X8. Every chunk of a text longer than [chunk_size] is a stretch of the
    text with no white space at either end, whatever the arguments. *)
Theorem chunks_are_trimmed_stretches_of_text (fuel : nat) (text : string)
    (chunk_size overlap : Z) (chunks : list string) :
  chunk_size < PyStr.len text ->
  chunk_text fuel text chunk_size overlap = Returned chunks ->
  Forall (fun c => PyStr.strip c = c /\ PyStr.contains c text = true) chunks.
Proof.
  intros Hlong Hrun. unfold chunk_text in Hrun.
  apply Z.leb_gt in Hlong. rewrite Hlong in Hrun.
  eapply chunk_loop_all; [|constructor|exact Hrun].
  intros a b. split; [apply strip_idempotent|].
  eapply contains_trans; [apply strip_contained|apply slice_contained].
Qed.

Lemma chunks_are_trimmed_stretches_of_text_witness :
  Forall (fun c => PyStr.strip c = c /\
                   PyStr.contains c "One two.  Three four! Five" = true)
    ["One two."; "Three four!"; "Five"].
Proof.
  apply (chunks_are_trimmed_stretches_of_text 9
           "One two.  Three four! Five" 12 0).
  - vm_compute. reflexivity.
  - vm_compute. reflexivity.
Defined.

(** X9. When every iteration is sure to advance by a step [d >= 1] (at
    most [chunk_size - overlap] and at most
    [max(chunk_size // 2, chunk_size - 100) + 2 - overlap]), the chunker
    returns on a text longer than [chunk_size], within as many iterations
    as the text has characters; its chunks have at most [chunk_size + 1]
    characters each, and there are at most [(len(text) + d - 1) / d] of
    them. The two bounds hold of the result of every run that returns. *)
Theorem chunk_sizes_and_count_bounded (text : string)
    (chunk_size overlap d : Z) :
  1 <= chunk_size -> 1 <= d -> d <= chunk_size - overlap ->
  d <= Z.max (chunk_size / 2) (chunk_size - 100) + 2 - overlap ->
  chunk_size < PyStr.len text ->
  (exists chunks,
     chunk_text (String.length text) text chunk_size overlap
     = Returned chunks /\
     Forall (fun c => Z.of_nat (String.length c) <= chunk_size + 1) chunks /\
     d * Z.of_nat (List.length chunks) <= PyStr.len text + d - 1) /\
  (forall fuel chunks,
     chunk_text fuel text chunk_size overlap = Returned chunks ->
     Forall (fun c => Z.of_nat (String.length c) <= chunk_size + 1) chunks /\
     d * Z.of_nat (List.length chunks) <= PyStr.len text + d - 1).
Proof.
  intros Hcs Hd Hd1 Hd2 Hlong.
  assert (Hbounds : forall fuel chunks,
            chunk_text fuel text chunk_size overlap = Returned chunks ->
            Forall (fun c => Z.of_nat (String.length c) <= chunk_size + 1)
              chunks /\
            d * Z.of_nat (List.length chunks) <= PyStr.len text + d - 1).
  { intros fuel chunks Hrun. unfold chunk_text in Hrun.
    pose proof Hlong as Hgt. apply Z.leb_gt in Hgt. rewrite Hgt in Hrun.
    destruct (chunk_loop_bounded text chunk_size overlap Hcs d Hd Hd1 Hd2
                fuel 0 [] chunks) as [Hall Hcount];
      [lia|constructor|exact Hrun|].
    split; [exact Hall|]. simpl in Hcount. lia. }
  split; [|exact Hbounds].
  assert (Hreturns : exists chunks,
            chunk_text (String.length text) text chunk_size overlap
            = Returned chunks).
  { unfold chunk_text. pose proof Hlong as Hgt. apply Z.leb_gt in Hgt.
    rewrite Hgt.
    apply (chunk_loop_returns text chunk_size overlap Hcs); try lia.
    unfold PyStr.len. lia. }
  destruct Hreturns as [chunks Hrun]. exists chunks.
  split; [exact Hrun|]. exact (Hbounds _ _ Hrun).
Qed.

Lemma chunk_sizes_and_count_bounded_witness :
  exists chunks,
    chunk_text 26 "One two.  Three four! Five" 12 0 = Returned chunks /\
    Forall (fun c => Z.of_nat (String.length c) <= 12 + 1) chunks /\
    8 * Z.of_nat (List.length chunks)
    <= PyStr.len "One two.  Three four! Five" + 8 - 1.
Proof.
  apply (proj1 (chunk_sizes_and_count_bounded "One two.  Three four! Five"
                  12 0 8 ltac:(lia) ltac:(lia) ltac:(lia)
                  ltac:(vm_compute; discriminate)
                  ltac:(vm_compute; reflexivity))).
Defined.

(** ** The Chat Store stays well formed *)

Section DictFacts.
Context {V : Type}.

Lemma dict_set_keys (k : string) (v : V) (d : list (string * V)) (x : string) :
  In x (List.map fst (Dict.set k v d)) -> x = k \/ In x (List.map fst d).
Proof.
  induction d as [|[k' v'] r IH]; simpl.
  - intros [<-|[]]. left. reflexivity.
  - destruct (String.eqb_spec k' k) as [->|Hne]; simpl.
    + intros [<-|H]; auto.
    + intros [<-|H]; [auto|]. destruct (IH H); auto.
Qed.

Lemma dict_set_nodup (k : string) (v : V) (d : list (string * V)) :
  List.NoDup (List.map fst d) -> List.NoDup (List.map fst (Dict.set k v d)).
Proof.
  induction d as [|[k' v'] r IH]; simpl; intros Hnd.
  - constructor; [intros []|constructor].
  - apply List.NoDup_cons_iff in Hnd as [Hk Hnd].
    destruct (String.eqb_spec k' k) as [->|Hne]; simpl.
    + constructor; assumption.
    + constructor; [|apply IH; exact Hnd].
      intros Hin. apply dict_set_keys in Hin as [Heq|Hin]; auto.
Qed.

Lemma dict_set_all (P : string * V -> Prop) (k : string) (v : V)
    (d : list (string * V)) :
  P (k, v) -> Forall P d -> Forall P (Dict.set k v d).
Proof.
  intros Hv. induction d as [|[k' v'] r IH]; simpl; intros Hall.
  - constructor; [exact Hv|constructor].
  - apply Forall_cons_iff in Hall as [Hh Hr].
    destruct (String.eqb k' k); constructor; auto.
Qed.

Lemma del_first_keys (p : V -> bool) (d : list (string * V)) (x : string) :
  In x (List.map fst (Dict.del_first p d)) -> In x (List.map fst d).
Proof.
  induction d as [|[k v] r IH]; simpl; [auto|].
  destruct (p v); simpl; [auto|]. intros [H|H]; auto.
Qed.

Lemma del_first_nodup (p : V -> bool) (d : list (string * V)) :
  List.NoDup (List.map fst d) ->
  List.NoDup (List.map fst (Dict.del_first p d)).
Proof.
  induction d as [|[k v] r IH]; simpl; intros Hnd; [constructor|].
  apply List.NoDup_cons_iff in Hnd as [Hk Hnd].
  destruct (p v); simpl; [exact Hnd|].
  constructor; [|apply IH; exact Hnd].
  intros Hin. apply del_first_keys in Hin. auto.
Qed.

Lemma del_first_all (P : string * V -> Prop) (p : V -> bool)
    (d : list (string * V)) :
  Forall P d -> Forall P (Dict.del_first p d).
Proof.
  induction d as [|[k v] r IH]; simpl; intros Hall; [constructor|].
  apply Forall_cons_iff in Hall as [Hh Hr].
  destruct (p v); [exact Hr|]. constructor; auto.
Qed.

End DictFacts.

Section StoreInvariant.
Variable E : collaborators.

(** What [process_document] does to the Chat Store: nothing, or one record
    put under the content digest in the chat named by a chat identifier
    that is not empty. *)
Lemma process_document_store (t_record t_summary : string) (s : rag)
    (file_content : list Byte.byte) (filename : string)
    (chat_id : option string) :
  let r := process_document E t_record t_summary s file_content filename
             chat_id in
  chat_documents (snd r) = chat_documents s \/
  exists c record,
    chat_id = Some c /\ PyStr.truthy c = true /\
    record_ok (md5_hexdigest10 E file_content, record) /\
    doc_filename record = filename /\
    (exists info, fst r = Ingested info) /\
    chat_documents (snd r)
    = <[ c := Dict.set (md5_hexdigest10 E file_content) record (docs_of s c) ]>
        (chat_documents s).
Proof.
  unfold process_document, processing_failed.
  destruct (save_file E file_content filename chat_id) as [meta|msg];
    [|left; reflexivity].
  destruct (extract_text E file_content filename) as [text|msg];
    [|left; reflexivity].
  destruct (PyStr.truthy text) eqn:Htext; simpl; [|left; reflexivity].
  destruct (chunk_text _ text default_chunk_size default_overlap)
    as [chunks| |] eqn:Hchunks; try (left; reflexivity).
  destruct chat_id as [c|]; [|left; reflexivity].
  destruct (PyStr.truthy c) eqn:Hc; [|left; reflexivity].
  right. exists c. eexists. split; [reflexivity|]. split; [exact Hc|].
  split; [|split; [|split; [eexists; reflexivity|reflexivity]]].
  - split; simpl; [exact Htext|exact Hchunks].
  - reflexivity.
Qed.

Lemma delete_document_store (w : storage_reply) (s : rag) (filename : string)
    (chat_id : option string) :
  let r := delete_document E w s filename chat_id in
  chat_documents (snd r) = chat_documents s \/
  exists c d,
    chat_id = Some c /\ PyStr.truthy c = true /\
    chat_documents s !! c = Some d /\
    chat_documents (snd r)
    = <[ c := Dict.del_first
                (fun doc_data => String.eqb (doc_filename doc_data) filename)
                d ]> (chat_documents s).
Proof.
  cbv zeta.
  destruct (delete_document_cases E w s filename chat_id) as [->|[b ->]];
    [left; reflexivity|].
  unfold remove_from_memory.
  simpl. destruct chat_id as [c|]; [|left; reflexivity].
  destruct (PyStr.truthy c) eqn:Hc; [|left; reflexivity].
  destruct (chat_documents s !! c) as [d0|] eqn:Hd; [|left; reflexivity].
  right. exists c, d0. auto.
Qed.

End StoreInvariant.

(** X10. In every state reached from a fresh object by ingestions and
    deletions, the Chat Store holds no chat under the empty identifier, no
    document identifier twice within a chat, and only records whose text
    is not empty and whose chunks are the chunking of that text. *)
Theorem reachable_store_ok (E : collaborators) (s : rag) :
  reachable E s -> store_ok s.
Proof.
  induction 1 as [|s t_record t_summary file_content filename chat_id _ IH
                  |s w filename chat_id _ IH].
  - intros c d Hd. unfold init in Hd. cbn [chat_documents] in Hd.
    rewrite lookup_empty in Hd. discriminate.
  - destruct (process_document_store E t_record t_summary s file_content
                filename chat_id)
      as [Hsame|[c [record [_ [Hc [Hrec [_ [_ Hstore]]]]]]]];
      intros c' d Hd.
    + rewrite Hsame in Hd. exact (IH c' d Hd).
    + rewrite Hstore in Hd. destruct (decide (c = c')) as [<-|Hne].
      * rewrite lookup_insert_eq in Hd. inversion Hd; subst d.
        assert (Hold : List.NoDup (List.map fst (docs_of s c)) /\
                       Forall record_ok (docs_of s c)).
        { unfold docs_of. destruct (chat_documents s !! c) as [d0|] eqn:Hd0.
          - destruct (IH c d0 Hd0) as [_ H]. exact H.
          - split; constructor. }
        destruct Hold as [Hnd Hall].
        split; [exact Hc|]. split.
        -- apply dict_set_nodup. exact Hnd.
        -- apply dict_set_all; assumption.
      * rewrite lookup_insert_ne in Hd by exact Hne. exact (IH c' d Hd).
  - destruct (delete_document_store E w s filename chat_id)
      as [Hsame|[c [d0 [_ [Hc [Hd0 Hstore]]]]]]; intros c' d Hd.
    + rewrite Hsame in Hd. exact (IH c' d Hd).
    + rewrite Hstore in Hd. destruct (decide (c = c')) as [<-|Hne].
      * rewrite lookup_insert_eq in Hd. inversion Hd; subst d.
        destruct (IH c d0 Hd0) as [_ [Hnd Hall]].
        split; [exact Hc|]. split.
        -- apply del_first_nodup. exact Hnd.
        -- apply del_first_all. exact Hall.
      * rewrite lookup_insert_ne in Hd by exact Hne. exact (IH c' d Hd).
Qed.

Lemma reachable_store_ok_witness :
  store_ok
    (snd (delete_document Sample.env Sample.removed
            (snd (process_document Sample.env "t3" "t4"
                    (snd (process_document Sample.env "t1" "t2" init
                            Sample.hello "a.txt" (Some "c")))
                    Sample.world "a.txt" (Some "c")))
            "a.txt" (Some "c"))).
Proof.
  apply (reachable_store_ok Sample.env).
  apply reach_delete, reach_ingest, reach_ingest, reach_init.
Defined.

(** ** Deleting *)

(** X11. When the storage does not raise, after [delete_document] the
    Global Registry holds exactly the summaries it held before that do not
    carry the given filename and chat identifier, and a second call with
    the same arguments returns false and changes nothing, whatever the
    storage answers then. Whatever the storage does, a call that returns
    true has left no summary with that filename and chat identifier. *)
Theorem delete_document_clears_registry (E : collaborators)
    (w w' : storage_reply) (s : rag) (filename : string)
    (chat_id : option string) :
  let r := delete_document E w s filename chat_id in
  (storage_quiet w ->
   documents_metadata (snd r)
   = List.filter (fun doc => negb (summary_matches filename chat_id doc))
       (documents_metadata s) /\
   (forall doc, In doc (documents_metadata (snd r)) ->
      ~ (sum_filename doc = filename /\ sum_chat_id doc = chat_id)) /\
   delete_document E w' (snd r) filename chat_id = (false, snd r)) /\
  (fst r = true ->
   forall doc, In doc (documents_metadata (snd r)) ->
     ~ (sum_filename doc = filename /\ sum_chat_id doc = chat_id)).
Proof.
  cbv zeta.
  assert (Hfiltered : forall s',
            documents_metadata s'
            = List.filter
                (fun doc => negb (summary_matches filename chat_id doc))
                (documents_metadata s) ->
            forall doc, In doc (documents_metadata s') ->
                        summary_matches filename chat_id doc = false).
  { intros s' Hreg doc Hdoc. rewrite Hreg in Hdoc.
    apply filter_In in Hdoc as [_ Hm]. apply negb_true_iff in Hm. exact Hm. }
  split.
  - intros Hw.
    assert (Hreg : documents_metadata
                     (snd (delete_document E w s filename chat_id))
                   = List.filter
                       (fun doc => negb (summary_matches filename chat_id doc))
                       (documents_metadata s)).
    { destruct (delete_document_quiet E w s filename chat_id Hw) as [b ->].
      destruct (List.find _ (documents_metadata s)) eqn:Hfind; [reflexivity|].
      simpl. symmetry. apply forallb_filter_id. apply forallb_forall.
      intros doc Hdoc. apply (find_none _ _ Hfind) in Hdoc. rewrite Hdoc.
      reflexivity. }
    split; [exact Hreg|]. split.
    + intros doc Hdoc Hm. apply summary_matches_iff in Hm.
      rewrite (Hfiltered _ Hreg doc Hdoc) in Hm. discriminate.
    + unfold delete_document at 1.
      rewrite find_no_match by exact (Hfiltered _ Hreg). reflexivity.
  - intros Htrue doc Hdoc Hm. apply summary_matches_iff in Hm.
    revert Htrue Hdoc. unfold delete_document.
    destruct (List.find _ (documents_metadata s)); [|discriminate].
    destruct (delete_from_storage E w _) as [b|msg]; [|discriminate].
    intros _ Hdoc.
    rewrite (Hfiltered (snd (remove_from_memory b s filename chat_id))
               eq_refl doc Hdoc) in Hm.
    discriminate.
Qed.

(** ** Chats do not see each other *)

Section Isolation.
Variable E : collaborators.

Lemma same_lookup_same_answers (s s' : rag) (c : string) :
  chat_documents s !! c = chat_documents s' !! c ->
  docs_of s c = docs_of s' c /\
  (forall query top_k,
     simple_search s query (Some c) top_k
     = simple_search s' query (Some c) top_k) /\
  (PyStr.truthy c = true ->
   has_documents s (Some c) = has_documents s' (Some c) /\
   get_document_list s (Some c) = get_document_list s' (Some c)).
Proof.
  intros Heq. split; [|split].
  - unfold docs_of. rewrite Heq. reflexivity.
  - intros query top_k. unfold simple_search. rewrite Heq. reflexivity.
  - intros Hc. unfold has_documents, get_document_list. simpl.
    rewrite Hc, Heq. split; reflexivity.
Qed.

Lemma process_document_other_chat (t_record t_summary : string) (s : rag)
    (file_content : list Byte.byte) (filename : string)
    (chat_id : option string) (c' : string) :
  chat_id <> Some c' ->
  chat_documents
    (snd (process_document E t_record t_summary s file_content filename
            chat_id)) !! c'
  = chat_documents s !! c'.
Proof.
  intros Hne.
  destruct (process_document_store E t_record t_summary s file_content
              filename chat_id) as [->|[c [record [-> [_ [_ [_ [_ ->]]]]]]]];
    [reflexivity|].
  apply lookup_insert_ne. congruence.
Qed.

Lemma delete_document_other_chat (w : storage_reply) (s : rag)
    (filename : string) (chat_id : option string) (c' : string) :
  chat_id <> Some c' ->
  chat_documents (snd (delete_document E w s filename chat_id)) !! c'
  = chat_documents s !! c'.
Proof.
  intros Hne.
  destruct (delete_document_store E w s filename chat_id)
    as [->|[c [d [-> [_ [_ ->]]]]]]; [reflexivity|].
  apply lookup_insert_ne. congruence.
Qed.

End Isolation.

(** X12. Ingesting into a chat, or deleting from it, changes neither the
    documents of any other chat nor what the retriever answers there,
    whatever the storage answers to the deletion. *)
Theorem other_chats_are_untouched (E : collaborators) (w : storage_reply)
    (t_record t_summary : string) (s : rag) (file_content : list Byte.byte)
    (filename : string) (chat_id : option string) (c' : string) :
  chat_id <> Some c' ->
  let s1 := snd (process_document E t_record t_summary s file_content
                   filename chat_id) in
  let s2 := snd (delete_document E w s filename chat_id) in
  docs_of s1 c' = docs_of s c' /\ docs_of s2 c' = docs_of s c' /\
  (forall query top_k,
     simple_search s1 query (Some c') top_k
     = simple_search s query (Some c') top_k /\
     simple_search s2 query (Some c') top_k
     = simple_search s query (Some c') top_k).
Proof.
  intros Hne s1 s2.
  destruct (same_lookup_same_answers s1 s c'
              (process_document_other_chat E t_record t_summary s file_content
                 filename chat_id c' Hne)) as [Hd1 [Hs1 _]].
  destruct (same_lookup_same_answers s2 s c'
              (delete_document_other_chat E w s filename chat_id c' Hne))
    as [Hd2 [Hs2 _]].
  split; [exact Hd1|]. split; [exact Hd2|].
  intros query top_k. split; [apply Hs1|apply Hs2].
Qed.

Lemma other_chats_are_untouched_witness :
  let s := snd (process_document Sample.env "t3" "t4"
                  (snd (process_document Sample.env "t1" "t2" init
                          Sample.hello "a.txt" (Some "c")))
                  Sample.world "a.txt" (Some "d")) in
  docs_of (snd (process_document Sample.env "t5" "t6" s Sample.world "b.txt"
                  (Some "d"))) "c"
  = docs_of s "c" /\
  docs_of (snd (delete_document Sample.env Sample.removed s "a.txt"
                  (Some "d"))) "c"
  = docs_of s "c" /\
  docs_of (snd (delete_document Sample.env Sample.removed s "a.txt"
                  (Some "d"))) "d"
  = [].
Proof.
  cbv zeta.
  set (s := snd (process_document Sample.env "t3" "t4"
                   (snd (process_document Sample.env "t1" "t2" init
                           Sample.hello "a.txt" (Some "c")))
                   Sample.world "a.txt" (Some "d"))).
  destruct (other_chats_are_untouched Sample.env Sample.removed "t5" "t6" s
              Sample.world "b.txt" (Some "d") "c" ltac:(discriminate))
    as [H1 _].
  destruct (other_chats_are_untouched Sample.env Sample.removed "t5" "t6" s
              Sample.world "a.txt" (Some "d") "c" ltac:(discriminate))
    as [_ [H2 _]].
  split; [exact H1|]. split; [exact H2|]. reflexivity.
Defined.

Lemma delete_document_clears_registry_witness :
  documents_metadata
    (snd (delete_document Sample.env Sample.removed
            (snd (process_document Sample.env "t1" "t2" init Sample.hello
                    "a.txt" (Some "c")))
            "a.txt" (Some "c")))
  = [] /\
  delete_document Sample.env Sample.denied
    (snd (delete_document Sample.env Sample.removed
            (snd (process_document Sample.env "t1" "t2" init Sample.hello
                    "a.txt" (Some "c")))
            "a.txt" (Some "c")))
    "a.txt" (Some "c")
  = (false,
     snd (delete_document Sample.env Sample.removed
            (snd (process_document Sample.env "t1" "t2" init Sample.hello
                    "a.txt" (Some "c")))
            "a.txt" (Some "c"))).
Proof.
  set (s := snd (process_document Sample.env "t1" "t2" init Sample.hello
                   "a.txt" (Some "c"))).
  destruct (delete_document_clears_registry Sample.env Sample.removed
              Sample.denied s "a.txt" (Some "c")) as [Hquiet _].
  destruct Hquiet as [Hreg [_ Hagain]].
  { split; [exists true|exists tt]; reflexivity. }
  split; [|exact Hagain].
  rewrite Hreg. reflexivity.
Defined.

(** ** Failed ingestions *)

(** X13. A call of [process_document] always comes back. When it raises, the
    message starts with "Document processing failed: " and the state is
    the one before the call; when the storage accepted the file and the
    lower-cased suffix of the filename is none of .pdf, .docx, .txt and
    .md, it raises with the unsupported suffix in the message. *)
Theorem process_document_failure_is_wrapped (E : collaborators)
    (t_record t_summary : string) (s : rag) (file_content : list Byte.byte)
    (filename : string) (chat_id : option string) :
  let r := process_document E t_record t_summary s file_content filename
             chat_id in
  fst r <> IngestHangs /\
  (forall msg, fst r = IngestFailed msg ->
     snd r = s /\ String.prefix "Document processing failed: " msg = true) /\
  (forall meta,
     save_file E file_content filename chat_id = Ok meta ->
     let extension := PyStr.lower (path_suffix E filename) in
     ~ In extension [".pdf"; ".docx"; ".txt"; ".md"] ->
     r = (IngestFailed ("Document processing failed: Unsupported file type: "
                        ++ extension), s)).
Proof.
  cbv zeta. split; [apply process_document_returns|]. split.
  - intros msg Hfail.
    destruct (process_document_effect E t_record t_summary s file_content
                filename chat_id) as [[Hsame _]|[info [_ [Hok _]]]];
      [|congruence].
    split; [exact Hsame|].
    revert Hfail. unfold process_document, processing_failed.
    destruct (save_file E file_content filename chat_id) as [meta|m].
    + destruct (extract_text E file_content filename) as [text|m].
      * destruct (PyStr.truthy text); simpl.
        -- destruct (chunk_text _ text default_chunk_size default_overlap);
             simpl; intros H; inversion H; subst; apply prefix_append.
        -- intros H; inversion H; subst. apply prefix_append.
      * simpl. intros H; inversion H; subst. apply prefix_append.
    + simpl. intros H; inversion H; subst. apply prefix_append.
  - intros meta Hsave Hext. unfold process_document, processing_failed.
    rewrite Hsave. unfold extract_text.
    set (extension := PyStr.lower (path_suffix E filename)) in *.
    destruct (String.eqb_spec extension ".pdf") as [Heq|_];
      [exfalso; apply Hext; rewrite Heq; simpl; tauto|].
    destruct (String.eqb_spec extension ".docx") as [Heq|_];
      [exfalso; apply Hext; rewrite Heq; simpl; tauto|].
    destruct (String.eqb_spec extension ".txt") as [Heq|_];
      [exfalso; apply Hext; rewrite Heq; simpl; tauto|].
    destruct (String.eqb_spec extension ".md") as [Heq|_];
      [exfalso; apply Hext; rewrite Heq; simpl; tauto|].
    reflexivity.
Qed.

Lemma process_document_failure_is_wrapped_witness :
  process_document Sample.env "t1" "t2" init Sample.hello "photo.PNG"
    (Some "c")
  = (IngestFailed "Document processing failed: Unsupported file type: .png",
     init) /\
  String.prefix "Document processing failed: "
    "Document processing failed: Unsupported file type: .png" = true.
Proof.
  destruct (process_document_failure_is_wrapped Sample.env "t1" "t2" init
              Sample.hello "photo.PNG" (Some "c")) as [_ [Hwrap Hext]].
  assert (Hrun : process_document Sample.env "t1" "t2" init Sample.hello
                   "photo.PNG" (Some "c")
                 = (IngestFailed
                      "Document processing failed: Unsupported file type: .png",
                    init)).
  { apply (Hext {| storage_type := "local";
                   file_path := "documents/5d41402abc_photo.PNG" |});
      [reflexivity|].
    vm_compute. intros [H|[H|[H|[H|[]]]]]; discriminate. }
  split; [exact Hrun|].
  apply (Hwrap "Document processing failed: Unsupported file type: .png").
  rewrite Hrun. reflexivity.
Defined.

(** ** Listing *)

(** X14. [has_documents] is true exactly when [get_document_list] has an
    element, for every chat identifier and for none; for a chat identifier
    that is not empty the listing shows the identifiers of the chat's
    records, in the order of the store, each with an empty file path. *)
Theorem listing_agrees_with_store (s : rag) (chat_id : option string) :
  has_documents s chat_id = listing_nonempty (get_document_list s chat_id) /\
  (forall c, chat_id = Some c -> PyStr.truthy c = true ->
     listing_ids (get_document_list s chat_id) = store_ids s c /\
     match get_document_list s chat_id with
     | Items l => Forall (fun item => item_file_path item = "") l
     | Summaries _ => False
     end).
Proof.
  split.
  - unfold has_documents, get_document_list.
    destruct chat_id as [c|]; simpl.
    + destruct (PyStr.truthy c); simpl.
      * destruct (chat_documents s !! c) as [[|d r]|]; reflexivity.
      * destruct (documents_metadata s); reflexivity.
    + destruct (documents_metadata s); reflexivity.
  - intros c -> Hc. unfold get_document_list, store_ids, docs_of.
    rewrite Hc. simpl.
    destruct (chat_documents s !! c) as [d|]; simpl.
    + split; [rewrite List.map_map; reflexivity|].
      apply List.Forall_forall. intros item Hitem.
      apply in_map_iff in Hitem as [x [<- _]]. reflexivity.
    + split; [reflexivity|constructor].
Qed.

Lemma listing_agrees_with_store_witness :
  let s := snd (process_document Sample.env "t1" "t2" init Sample.hello
                  "a.txt" (Some "c")) in
  listing_ids (get_document_list s (Some "c")) = store_ids s "c".
Proof.
  cbv zeta.
  set (s := snd (process_document Sample.env "t1" "t2" init Sample.hello
                   "a.txt" (Some "c"))).
  exact (proj1 (proj2 (listing_agrees_with_store s (Some "c")) "c"
                  eq_refl eq_refl)).
Defined.

(** ** From ingestion to retrieval *)

Lemma take_py_one {A : Type} (k : Z) (x : A) : 1 <= k -> take_py k [x] = [x].
Proof.
  intros Hk. unfold take_py. destruct (Z.leb_spec 0 k) as [_|H]; [|lia].
  destruct (Z.to_nat k) as [|n] eqn:Hn; [lia|]. simpl.
  destruct n; reflexivity.
Qed.

(** X15. A text of at most 1000 characters ingested into a chat without
    documents is stored as one chunk; a query one of whose tokens occurs
    in the lower-cased text then gets the prompt that cites this text as
    reference 1 under the filename. *)
Theorem ingest_then_search_cites_document (E : collaborators)
    (t_record t_summary : string) (s : rag) (file_content : list Byte.byte)
    (filename c : string) (meta : file_metadata) (text query word : string)
    (top_k : Z) :
  PyStr.truthy c = true ->
  has_documents s (Some c) = false ->
  save_file E file_content filename (Some c) = Ok meta ->
  extract_text E file_content filename = Ok text ->
  text <> "" -> PyStr.len text <= default_chunk_size ->
  In word (PyStr.split (PyStr.lower query)) ->
  PyStr.contains word (PyStr.lower text) = true ->
  1 <= top_k ->
  let s1 := snd (process_document E t_record t_summary s file_content
                   filename (Some c)) in
  simple_search s1 query (Some c) top_k
  = enhanced_prompt
      ("[Document Reference 1: " ++ filename ++ "]" ++ nl ++ text) query.
Proof.
  intros Hc Hno Hsave Hext Htext Hshort Hword Hsub Hk s1.
  assert (Hdocs : docs_of s c = []).
  { rewrite has_documents_truthy in Hno by exact Hc. unfold docs_of.
    destruct (chat_documents s !! c) as [[|d r]|];
      [reflexivity|discriminate|reflexivity]. }
  assert (Hchunks : chunk_text (S (String.length text)) text
                      default_chunk_size default_overlap = Returned [text]).
  { unfold chunk_text. apply Z.leb_le in Hshort. rewrite Hshort. reflexivity. }
  assert (Hs1 : docs_of s1 c
                = [(md5_hexdigest10 E file_content,
                    {| doc_filename := filename; doc_chunks := [text];
                       doc_full_text := text; doc_upload_time := t_record;
                       doc_file_metadata := meta |})]).
  { unfold s1, process_document. rewrite Hsave, Hext.
    destruct text as [|x text']; [congruence|]. cbn [PyStr.truthy negb].
    rewrite Hchunks, Hc. unfold docs_of at 1. cbn [snd chat_documents].
    rewrite lookup_insert_eq, Hdocs. reflexivity. }
  rewrite simple_search_truthy by exact Hc. cbv zeta. rewrite Hs1.
  set (query_words := PyStr.split (PyStr.lower query)) in *.
  assert (Hpos : (0 <? relevance_score query_words text)%nat = true).
  { apply Nat.ltb_lt, relevance_score_pos. eauto. }
  unfold relevant_chunks. cbn [List.flat_map snd doc_chunks doc_filename app].
  rewrite Hpos. cbn [app sort_desc List.fold_right insert_desc].
  rewrite take_py_one by exact Hk. reflexivity.
Qed.

Lemma ingest_then_search_cites_document_witness :
  simple_search
    (snd (process_document Sample.env "t1" "t2" init Sample.hello "a.txt"
            (Some "c")))
    "Hello there" (Some "c") default_top_k
  = enhanced_prompt ("[Document Reference 1: " ++ "a.txt" ++ "]" ++ nl
                     ++ "hello") "Hello there".
Proof.
  apply (ingest_then_search_cites_document Sample.env "t1" "t2" init
           Sample.hello "a.txt" "c"
           {| storage_type := "local";
              file_path := "documents/5d41402abc_a.txt" |}
           "hello" "Hello there" "hello" default_top_k);
    try reflexivity.
  - discriminate.
  - vm_compute. discriminate.
  - left. reflexivity.
  - vm_compute. discriminate.
Defined.

(** ** Queries without tokens *)

Section SplitFacts.

Lemma split_aux_blank (s : string) :
  (forall c, PyStr.contains (String c "") s = true -> PyStr.is_space c = true) ->
  PyStr.split_aux "" s = [].
Proof.
  induction s as [|c s IH]; intros Hall; [reflexivity|]. simpl.
  assert (Hc : PyStr.is_space c = true).
  { apply Hall. apply contains_prefix. simpl.
    destruct (ascii_dec c c); [|congruence]. destruct s; reflexivity. }
  rewrite Hc. simpl. apply IH. intros c' Hc'. apply Hall.
  apply contains_tail. exact Hc'.
Qed.

Lemma split_aux_nonempty (s : string) : forall cur,
  Forall (fun w => w <> "") (PyStr.split_aux cur s).
Proof.
  induction s as [|c s IH]; intros cur; simpl.
  - destruct cur; simpl; constructor; [discriminate|constructor].
  - destruct (PyStr.is_space c).
    + destruct cur; simpl; [apply IH|]. constructor; [discriminate|apply IH].
    + apply IH.
Qed.

Lemma is_space_lower_char (c : ascii) :
  PyStr.is_space (PyStr.lower_char c) = PyStr.is_space c.
Proof. destruct c as [[] [] [] [] [] [] [] []]; reflexivity. Qed.

Lemma char_in_cons (c x : ascii) (r : string) :
  PyStr.contains (String c "") (String x r) = true ->
  c = x \/ PyStr.contains (String c "") r = true.
Proof.
  intros H. rewrite contains_unfold in H. apply orb_true_iff in H as [H|H].
  - left. simpl in H. destruct (ascii_dec c x); [assumption|discriminate].
  - right. exact H.
Qed.

Lemma char_in_head (x : ascii) (r : string) :
  PyStr.contains (String x "") (String x r) = true.
Proof.
  apply contains_prefix. simpl. destruct (ascii_dec x x); [|congruence].
  destruct r; reflexivity.
Qed.

Lemma lower_blank (q : string) :
  (forall c, PyStr.contains (String c "") q = true -> PyStr.is_space c = true) ->
  forall c, PyStr.contains (String c "") (PyStr.lower q) = true ->
            PyStr.is_space c = true.
Proof.
  induction q as [|x q IH]; intros Hall c Hc; [discriminate|].
  simpl in Hc. apply char_in_cons in Hc as [->|Hc].
  - rewrite is_space_lower_char. apply Hall, char_in_head.
  - apply IH; [|exact Hc]. intros c' Hc'. apply Hall, contains_tail, Hc'.
Qed.

End SplitFacts.

(** X16. A query made of white space only has no tokens, so [simple_search]
    returns it unchanged for every chat; and no token is ever the empty
    string, which every chunk would contain. *)
Theorem blank_query_returned_unchanged (s : rag) (query : string)
    (chat_id : option string) (top_k : Z) :
  Forall (fun w => w <> "") (PyStr.split (PyStr.lower query)) /\
  ((forall c, PyStr.contains (String c "") query = true ->
              PyStr.is_space c = true) ->
   simple_search s query chat_id top_k = query).
Proof.
  split; [apply split_aux_nonempty|]. intros Hblank0.
  pose proof (lower_blank query Hblank0) as Hblank.
  destruct chat_id as [c|]; [|reflexivity].
  destruct (PyStr.truthy c) eqn:Hc;
    [|unfold simple_search; rewrite Hc; reflexivity].
  rewrite simple_search_truthy by exact Hc. cbv zeta.
  unfold PyStr.split. rewrite split_aux_blank by exact Hblank.
  rewrite relevant_chunks_no_words. simpl. rewrite take_py_nil.
  destruct (docs_of s c); reflexivity.
Qed.

Lemma blank_query_returned_unchanged_witness :
  simple_search
    (snd (process_document Sample.env "t1" "t2" init Sample.hello "a.txt"
            (Some "c")))
    "  " (Some "c") default_top_k = "  ".
Proof.
  apply (proj2 (blank_query_returned_unchanged
                  (snd (process_document Sample.env "t1" "t2" init
                          Sample.hello "a.txt" (Some "c")))
                  "  " (Some "c") default_top_k)).
  intros c Hc.
  apply char_in_cons in Hc as [->|Hc]; [reflexivity|].
  apply char_in_cons in Hc as [->|Hc]; [reflexivity|discriminate].
Defined.

(** ** What an ingestion reports *)

Lemma dict_set_in {V : Type} (k : string) (v : V) (d : list (string * V)) :
  In (k, v) (Dict.set k v d).
Proof.
  induction d as [|[k' v'] r IH]; simpl; [left; reflexivity|].
  destruct (String.eqb k' k); [left; reflexivity|right; exact IH].
Qed.

(** X17. After a successful ingestion into a chat whose identifier is not
    empty, the store of that chat holds a record under the reported
    identifier with the reported filename and as many chunks as reported,
    and the last summary of the registry carries the same identifier,
    filename, chunk count and chat. *)
Theorem ingestion_report_matches_state (E : collaborators)
    (t_record t_summary : string) (s : rag) (file_content : list Byte.byte)
    (filename c : string) (info : ingest_info) (s1 : rag) :
  PyStr.truthy c = true ->
  process_document E t_record t_summary s file_content filename (Some c)
  = (Ingested info, s1) ->
  info_file_id info = md5_hexdigest10 E file_content /\
  info_filename info = filename /\
  (exists record,
     In (info_file_id info, record) (docs_of s1 c) /\
     doc_filename record = filename /\
     List.length (doc_chunks record) = info_chunk_count info /\
     doc_file_metadata record = info_file_metadata info) /\
  (exists entry,
     documents_metadata s1 = (documents_metadata s ++ [entry])%list /\
     sum_id entry = info_file_id info /\ sum_filename entry = filename /\
     sum_chunks entry = info_chunk_count info /\
     sum_chat_id entry = Some c).
Proof.
  intros Hc. unfold process_document, processing_failed.
  destruct (save_file E file_content filename (Some c)) as [meta|msg];
    [|discriminate].
  destruct (extract_text E file_content filename) as [text|msg];
    [|discriminate].
  destruct (PyStr.truthy text); simpl; [|discriminate].
  destruct (chunk_text _ text default_chunk_size default_overlap)
    as [chunks| |]; try discriminate.
  rewrite Hc. intros Hrun. inversion Hrun; subst info s1. clear Hrun.
  simpl. split; [reflexivity|]. split; [reflexivity|]. split.
  - eexists. split; [|split; [|split]].
    + unfold docs_of. simpl. rewrite lookup_insert_eq. simpl.
      apply dict_set_in.
    + reflexivity.
    + reflexivity.
    + reflexivity.
  - eexists. split; [reflexivity|]. simpl. auto.
Qed.

Lemma ingestion_report_matches_state_witness :
  exists info s1,
    process_document Sample.env "t1" "t2" init Sample.hello "a.txt" (Some "c")
    = (Ingested info, s1) /\
    info_file_id info = "5d41402abc" /\ info_filename info = "a.txt".
Proof.
  eexists. eexists. split; [reflexivity|].
  destruct (ingestion_report_matches_state Sample.env "t1" "t2" init
              Sample.hello "a.txt" "c" _ _ eq_refl eq_refl) as [Hid [Hfn _]].
  split; [exact Hid|exact Hfn].
Defined.
